(** * Facial-Recognition---Details: the HTTP routers and the aggregation core

    A shallow embedding of the Express routers of the repository
    (person details, facial recognition, livestream) as state-passing
    functions over the in-memory [personDatabase], followed by the
    correlation core (entity extraction and field correlation).

    Layout: JavaScript values, the handler monad, the three routers,
    the extractor, the correlator, then the theorems. *)

From Stdlib Require Import List String Ascii Bool Arith ZArith Lia.
From Stdlib Require Import DecimalString PrimFloat Uint63 QArith.
From Stdlib Require Import Reals Lra Permutation.
Import ListNotations.

Set Warnings "-register-all,-inexact-float".
Close Scope Q_scope.
Close Scope R_scope.
Local Open Scope string_scope.
Local Open Scope list_scope.

(* ================================================================== *)
(** ** JavaScript values as the routers see them *)
(* ================================================================== *)

Module JS.

(** Values that reach a handler through [req.query], [req.params] and
    [req.body] (parsed JSON or a parsed query string) and values the
    handlers build for [res.json].  Numbers are IEEE doubles.  An object
    is its list of own properties in insertion order. *)
Inductive value : Type :=
| Undefined
| Null
| Bool (b : bool)
| Num (x : float)
| Str (s : string)
| Arr (items : list value)
| Obj (props : list (string * value)).

Definition object : Type := list (string * value).

(** ToBoolean: what [!v], [v || w] and [if (v)] test. *)
Definition truthy (v : value) : bool :=
  match v with
  | Undefined | Null => false
  | Bool b => b
  | Num x => negb (PrimFloat.eqb x 0%float || PrimFloat.is_nan x)
  | Str s => negb (String.eqb s "")
  | Arr _ | Obj _ => true
  end.

(** [a || b]. *)
Definition or_else (a b : value) : value :=
  if truthy a then a else b.

(** Own-property lookup on an object literal or a parsed object. *)
Fixpoint lookup (k : string) (o : object) : option value :=
  match o with
  | [] => None
  | (k', v) :: rest => if String.eqb k k' then Some v else lookup k rest
  end.

(** [o.k], and the destructuring [const { k } = o]: a missing property
    reads as [undefined]. *)
Definition get (k : string) (o : object) : value :=
  match lookup k o with
  | Some v => v
  | None => Undefined
  end.

(** [a === b] between a value held by the server and a value parsed out
    of the current request.  Arrays and objects compare by reference, and
    a freshly parsed request value is never the same reference as a stored
    one, so those cases are [false]. *)
Definition strict_equals (a b : value) : bool :=
  match a, b with
  | Undefined, Undefined => true
  | Null, Null => true
  | Bool x, Bool y => Bool.eqb x y
  | Num x, Num y => PrimFloat.eqb x y
  | Str x, Str y => String.eqb x y
  | _, _ => false
  end.

(** [n.toString()] for an integer [n]. *)
Definition toString (n : Z) : string :=
  NilZero.string_of_int (Z.to_int n).

(** An array length or other small count as a JavaScript number (array
    lengths are below 2^32, where the conversion is exact). *)
Definition of_nat (n : nat) : value :=
  Num (PrimFloat.of_uint63 (Uint63.of_Z (Z.of_nat n))).

End JS.

(* ================================================================== *)
(** ** Requests, responses and the handler monad *)
(* ================================================================== *)

Module Http.
Import JS.

(** The file object multer leaves in [req.file]. *)
Record multer_file : Type := {
  originalname : string;
  filename : string;
  path : string
}.

(** What a handler reads of [req]: the parsed query string, the route
    parameters, the body as [express.json()] / [express.urlencoded()] left
    it (an object), and the upload. *)
Record request : Type := {
  query : object;
  params : list (string * string);
  body : object;
  file : option multer_file
}.

Definition empty_request : request :=
  {| query := []; params := []; body := []; file := None |}.

(** [res.status(code).json(payload)]; [res.json(payload)] alone is 200.
    The payload is kept as the value handed to [res.json]. *)
Record response : Type := {
  status : nat;
  payload : value
}.

Definition json (code : nat) (v : value) : response :=
  {| status := code; payload := v |}.

(** A 2xx status. *)
Definition succeeded (r : response) : bool :=
  (200 <=? status r)%nat && (status r <? 300)%nat.

(** A top-level property of the JSON payload ([None] when absent). *)
Definition property (k : string) (r : response) : option value :=
  match payload r with
  | Obj o => lookup k o
  | _ => None
  end.

(** The payload carries an [error] property. *)
Definition reports_error (r : response) : bool :=
  match property "error" r with
  | Some _ => true
  | None => false
  end.

(** What a handler touches outside its request. *)
Inductive event : Type :=
| DbFind
| DbLength
| DbPush
| DbRead
| ClockRead.

(** The server's state between requests: the module-level array
    [personDatabase], the wall clock, and a record of the accesses made
    (most recent last). *)
Record world : Type := {
  personDatabase : list object;
  clock : Z;
  log : list event
}.

Definition M (A : Type) : Type := world -> A * world.

Definition ret {A} (a : A) : M A := fun w => (a, w).

Definition bind {A B} (m : M A) (f : A -> M B) : M B :=
  fun w => let (a, w') := m w in f a w'.

Definition record (e : event) (w : world) : world :=
  {| personDatabase := personDatabase w;
     clock := clock w;
     log := log w ++ [e] |}.

(** [personDatabase.find(pred)] *)
Definition db_find (pred : object -> bool) : M (option object) :=
  fun w => (find pred (personDatabase w), record DbFind w).

(** [personDatabase.length] *)
Definition db_length : M nat :=
  fun w => (List.length (personDatabase w), record DbLength w).

(** [personDatabase.push(p)] *)
Definition db_push (p : object) : M unit :=
  fun w => (tt, {| personDatabase := personDatabase w ++ [p];
                   clock := clock w;
                   log := log w ++ [DbPush] |}).

(** [personDatabase] read whole, as in [persons: personDatabase]. *)
Definition db_read : M (list object) :=
  fun w => (personDatabase w, record DbRead w).

(** [Date.now()] and [new Date()]: milliseconds since the epoch. *)
Definition date_now : M Z :=
  fun w => (clock w, record ClockRead w).

End Http.

Declare Scope handler_scope.
Delimit Scope handler_scope with handler.
Notation "x <- m ;; k" := (Http.bind m (fun x => k))
  (at level 61, m at next level, right associativity) : handler_scope.
Notation "m ;;; k" := (Http.bind m (fun _ => k))
  (at level 61, right associativity) : handler_scope.

(* ================================================================== *)
(** ** routes/personDetails.js *)
(* ================================================================== *)

Module PersonDetails.
Import JS Http.
Local Open Scope handler_scope.

(** Every handler body of the routers sits in a [try] whose [catch]
    answers 500.  Nothing the handlers do with the values below throws
    (property reads on objects, [find], [push], [res.json] of parsed
    JSON), so the 500 answers are not reached and are left out. *)

(** The two demo records the module starts with. *)
Definition initialDatabase : list object :=
  [ [ ("id", Str "1");
      ("faceId", Str "face-001");
      ("name", Str "John Doe");
      ("birthday", Str "1990-05-15");
      ("interests", Arr [Str "technology"; Str "music"; Str "sports"]);
      ("occupation", Str "Software Engineer");
      ("location", Str "New York, USA");
      ("socialMedia", Obj [("instagram", Str "@johndoe");
                           ("twitter", Str "@johndoe")]) ];
    [ ("id", Str "2");
      ("faceId", Str "face-002");
      ("name", Str "Jane Smith");
      ("birthday", Str "1988-09-22");
      ("interests", Arr [Str "art"; Str "travel"; Str "photography"]);
      ("occupation", Str "Photographer");
      ("location", Str "Los Angeles, USA");
      ("socialMedia", Obj [("instagram", Str "@janesmith");
                           ("twitter", Str "@janesmith")]) ] ].

Definition initialWorld (now : Z) : world :=
  {| personDatabase := initialDatabase; clock := now; log := [] |}.

(** GET /api/person-details/search *)
Definition search (req : request) : M response :=
  let faceId := get "faceId" (query req) in
  if negb (truthy faceId) then
    ret (json 400 (Obj [("error", Str "faceId is required")]))
  else
    person <- db_find (fun p => strict_equals (get "faceId" p) faceId) ;;
    match person with
    | None =>
        ret (json 404
               (Obj [("error", Str "Person not found");
                     ("message",
                      Str "No matching person found for the given faceId")]))
    | Some p =>
        ret (json 200 (Obj [("status", Str "success"); ("person", Obj p)]))
    end.

(** [req.params.k]: the route parameter of the matched path, a string;
    [undefined] when the path has no such parameter. *)
Definition param (k : string) (req : request) : value :=
  match find (fun kv => String.eqb k (fst kv)) (params req) with
  | Some kv => Str (snd kv)
  | None => Undefined
  end.

(** GET /api/person-details/:personId *)
Definition getById (req : request) : M response :=
  let personId := param "personId" req in
  person <- db_find (fun p => strict_equals (get "id" p) personId) ;;
  match person with
  | None =>
      ret (json 404
             (Obj [("error", Str "Person not found");
                   ("message", Str "No person found with the given ID")]))
  | Some p =>
      ret (json 200 (Obj [("status", Str "success"); ("person", Obj p)]))
  end.

(** The object literal [newPerson] of POST /. *)
Definition newPerson (len : nat) (b : object) : object :=
  [ ("id", Str (toString (Z.of_nat len + 1)));
    ("faceId", get "faceId" b);
    ("name", get "name" b);
    ("birthday", or_else (get "birthday" b) Null);
    ("interests", or_else (get "interests" b) (Arr []));
    ("occupation", or_else (get "occupation" b) Null);
    ("location", or_else (get "location" b) Null);
    ("socialMedia", or_else (get "socialMedia" b) (Obj [])) ].

(** POST /api/person-details *)
Definition create (req : request) : M response :=
  let name := get "name" (body req) in
  let faceId := get "faceId" (body req) in
  if negb (truthy name) || negb (truthy faceId) then
    ret (json 400 (Obj [("error", Str "Name and faceId are required")]))
  else
    len <- db_length ;;
    let p := newPerson len (body req) in
    db_push p ;;;
    ret (json 201 (Obj [("status", Str "success");
                        ("message", Str "Person added successfully");
                        ("person", Obj p)])).

(** GET /api/person-details *)
Definition list_all (_ : request) : M response :=
  len <- db_length ;;
  persons <- db_read ;;
  ret (json 200 (Obj [("status", Str "success");
                      ("count", of_nat len);
                      ("persons", Arr (map Obj persons))])).

(** The router: the four routes in registration order. *)
Inductive route : Type :=
| GET_search
| GET_personId
| POST_root
| GET_root.

Definition handle (r : route) : request -> M response :=
  match r with
  | GET_search => search
  | GET_personId => getById
  | POST_root => create
  | GET_root => list_all
  end.

Definition is_get (r : route) : bool :=
  match r with
  | POST_root => false
  | _ => true
  end.

(** Requests as a client issues them: [GET /search?faceId=...],
    [GET /:personId] and [POST /] with a JSON body. *)
Definition search_for (faceId : string) : request :=
  {| query := [("faceId", Str faceId)]; params := [];
     body := []; file := None |}.

Definition lookup_id (personId : string) : request :=
  {| query := []; params := [("personId", personId)];
     body := []; file := None |}.

Definition post (b : object) : request :=
  {| query := []; params := []; body := b; file := None |}.

(** The record a response carries under [person]. *)
Definition returned_person (r : response) : option object :=
  match property "person" r with
  | Some (Obj p) => Some p
  | _ => None
  end.


(** The states the server can be in: the initial array, then whatever a
    sequence of requests (at any clock readings) leaves behind. *)
Inductive reachable : world -> Prop :=
| reach_init : forall now, reachable (initialWorld now)
| reach_tick : forall w now,
    reachable w ->
    reachable {| personDatabase := personDatabase w;
                 clock := now; log := log w |}
| reach_step : forall w r req,
    reachable w -> reachable (snd (handle r req w)).

End PersonDetails.

(* ================================================================== *)
(** ** routes/facialRecognition.js *)
(* ================================================================== *)

Module FacialRecognition.
Import JS Http.
Local Open Scope handler_scope.

Section Router.
(** Node's [path.extname] and [Date.prototype.toISOString] are runtime
    library functions; the router is read over any implementation. *)
Variable extname : string -> string.
Variable toISOString : Z -> string.

(** The multer disk storage: [destination] and [filename] callbacks. *)
Definition storage_destination : string := "uploads".

Definition storage_filename (now : Z) (original : string) : string :=
  toString now ++ extname original.

(** POST /api/facial-recognition/process *)
Definition process (req : request) : M response :=
  match file req with
  | None =>
      ret (json 400 (Obj [("error", Str "No video file uploaded")]))
  | Some f =>
      let videoPath := path f in
      now <- date_now ;;
      let mockResults :=
        Obj [("processId", Str (toString now));
             ("videoFile", Str (filename f));
             ("status", Str "processing");
             ("detectedFaces", Arr []);
             ("message",
              Str "Video uploaded successfully. Configure facial recognition API in .env for actual processing.")] in
      ret (json 200 mockResults)
  end.

(** The constant [mockFaces] of the analyze-frame handler. *)
Definition mockFaces : list value :=
  [ Obj [("faceId", Str "face-1");
         ("confidence", Num 0.95%float);
         ("boundingBox", Obj [("x", Num 100%float); ("y", Num 100%float);
                              ("width", Num 200%float);
                              ("height", Num 200%float)]);
         ("attributes", Obj [("age", Num 25%float);
                             ("gender", Str "unknown");
                             ("emotion", Str "neutral")])] ].

(** POST /api/facial-recognition/analyze-frame *)
Definition analyze_frame (req : request) : M response :=
  let imageData := get "imageData" (body req) in
  if negb (truthy imageData) then
    ret (json 400 (Obj [("error", Str "Image data is required")]))
  else
    now <- date_now ;;
    ret (json 200 (Obj [("status", Str "success");
                        ("facesDetected", of_nat (List.length mockFaces));
                        ("faces", Arr mockFaces);
                        ("timestamp", Str (toISOString now))])).

(** GET /api/facial-recognition/results/:processId *)
Definition results (processId : string) : M response :=
  now <- date_now ;;
  ret (json 200 (Obj [("processId", Str processId);
                      ("status", Str "completed");
                      ("detectedFaces", Arr []);
                      ("timestamp", Str (toISOString now))])).

End Router.


Definition with_body (b : object) : request :=
  {| query := []; params := []; body := b; file := None |}.

End FacialRecognition.

(* ================================================================== *)
(** ** routes/livestream.js *)
(* ================================================================== *)

Module Livestream.
Import JS Http.
Local Open Scope handler_scope.

(** POST /api/livestream/capture *)
Definition capture (req : request) : M response :=
  let livestreamUrl := get "livestreamUrl" (body req) in
  if negb (truthy livestreamUrl) then
    ret (json 400 (Obj [("error", Str "Livestream URL is required")]))
  else
    now <- date_now ;;
    ret (json 200
           (Obj [("status", Str "success");
                 ("message", Str "Livestream capture initiated");
                 ("livestreamUrl", livestreamUrl);
                 ("captureId", Str (toString now));
                 ("note",
                  Str "Configure Instagram API credentials in .env file for actual implementation")])).

Section Status.
Variable toISOString : Z -> string.

(** GET /api/livestream/status/:captureId *)
Definition capture_status (captureId : string) : M response :=
  now <- date_now ;;
  ret (json 200 (Obj [("captureId", Str captureId);
                      ("status", Str "processing");
                      ("framesProcessed", Num 0%float);
                      ("timestamp", Str (toISOString now))])).
End Status.

End Livestream.

(* ================================================================== *)
(** ** The aggregation core: shared data model *)
(* ================================================================== *)

Module Core.

(** The structured fields an extractor or adapter can assert. *)
Inductive field : Type :=
| name
| age
| location
| occupation.

Definition field_eqb (f g : field) : bool :=
  match f, g with
  | name, name | age, age | location, location
  | occupation, occupation => true
  | _, _ => false
  end.

(** A field value: text, or a number (an age in years). *)
Inductive fvalue : Type :=
| Text (s : string)
| Number (n : nat).

Definition fvalue_eqb (a b : fvalue) : bool :=
  match a, b with
  | Text x, Text y => String.eqb x y
  | Number x, Number y => (x =? y)%nat
  | _, _ => false
  end.

(** Character classes of the patterns: [\d], [\w], [\s], [A-Z], [a-z]. *)
Definition is_digit (c : ascii) : bool :=
  let n := nat_of_ascii c in (48 <=? n)%nat && (n <=? 57)%nat.

Definition is_upper (c : ascii) : bool :=
  let n := nat_of_ascii c in (65 <=? n)%nat && (n <=? 90)%nat.

Definition is_lower (c : ascii) : bool :=
  let n := nat_of_ascii c in (97 <=? n)%nat && (n <=? 122)%nat.

Definition is_word_char (c : ascii) : bool :=
  is_digit c || is_upper c || is_lower c || (nat_of_ascii c =? 95)%nat.

Definition is_space (c : ascii) : bool :=
  let n := nat_of_ascii c in
  (n =? 32)%nat || ((9 <=? n)%nat && (n <=? 13)%nat).

End Core.

(* ================================================================== *)
(** ** Entity Extractor *)
(* ================================================================== *)

Module Extractor.
Import Core.

(** Modelled from the spec: the Entity Extractor (the Python
    [services/llm_processor.py], which is not among the sources).  An
    ExtractedEntity is a candidate field with the strength the strategy
    reports for it. *)
Record ExtractedEntity : Type := {
  efield : field;
  evalue : fvalue;
  strength : Q
}.

(** Modelled from the spec: the pattern rules work on the text cut at
    word boundaries (the Python extractor is not among the sources):
    maximal runs of word characters, and every other character on its
    own. *)
Inductive token : Type :=
| Word (w : list ascii)
| Sep (c : ascii).

Fixpoint tokenize (s : list ascii) : list token :=
  match s with
  | [] => []
  | c :: rest =>
      if is_word_char c then
        match tokenize rest with
        | Word w :: ts => Word (c :: w) :: ts
        | ts => Word [c] :: ts
        end
      else Sep c :: tokenize rest
  end.

Definition chars_eqb (a b : list ascii) : bool :=
  String.eqb (string_of_list_ascii a) (string_of_list_ascii b).

Definition token_eqb (a b : token) : bool :=
  match a, b with
  | Word x, Word y => chars_eqb x y
  | Sep x, Sep y => Ascii.eqb x y
  | _, _ => false
  end.

Fixpoint span (p : ascii -> bool) (s : list ascii)
  : list ascii * list ascii :=
  match s with
  | [] => ([], [])
  | c :: rest =>
      if p c then let (a, b) := span p rest in (c :: a, b)
      else ([], s)
  end.

(** *** Names: a run of two or more capitalized words
    ([\b[A-Z][a-z]+( [A-Z][a-z]+)+\b]) *)

Definition capitalized (w : list ascii) : bool :=
  match w with
  | c :: (_ :: _) as tl => is_upper c && forallb is_lower tl
  | _ => false
  end.

(** The capitalized words that follow, each after exactly one space. *)
Fixpoint more_capitalized (ts : list token) : list (list ascii) :=
  match ts with
  | Sep c :: Word w :: rest =>
      if Ascii.eqb c " "%char && capitalized w
      then w :: more_capitalized rest
      else []
  | _ => []
  end.

Definition name_here (ts : list token) : option string :=
  match ts with
  | Word w :: rest =>
      if capitalized w then
        match more_capitalized rest with
        | [] => None
        | ws =>
            Some (String.concat " "
                    (map string_of_list_ascii (w :: ws)))
        end
      else None
  | _ => None
  end.

Fixpoint find_name (ts : list token) : option string :=
  match ts with
  | [] => None
  | t :: rest =>
      match name_here ts with
      | Some n => Some n
      | None => find_name rest
      end
  end.

(** *** Ages: [\b\d{1,3}\s*(years? old|yo)\b] *)

Definition digit_value (c : ascii) : nat := nat_of_ascii c - 48.

Definition number_of_digits (ds : list ascii) : nat :=
  fold_left (fun acc c => 10 * acc + digit_value c)%nat ds 0%nat.

Fixpoint skip_spaces (ts : list token) : list token :=
  match ts with
  | Sep c :: rest => if is_space c then skip_spaces rest else ts
  | _ => ts
  end.

(** [years? old] or [yo], ending at a word boundary. *)
Definition unit_here (ts : list token) : bool :=
  match ts with
  | Word w :: rest =>
      if chars_eqb w (list_ascii_of_string "yo") then true
      else if chars_eqb w (list_ascii_of_string "years")
              || chars_eqb w (list_ascii_of_string "year")
      then match rest with
           | Sep c :: Word o :: _ =>
               Ascii.eqb c " "%char
               && chars_eqb o (list_ascii_of_string "old")
           | _ => false
           end
      else false
  | _ => false
  end.

Definition age_here (ts : list token) : option nat :=
  match ts with
  | Word w :: rest =>
      let (ds, suffix) := span is_digit w in
      if (1 <=? List.length ds)%nat && (List.length ds <=? 3)%nat then
        let after :=
          match suffix with
          | [] => skip_spaces rest
          | _ => Word suffix :: rest
          end in
        if unit_here after then Some (number_of_digits ds) else None
      else None
  | _ => None
  end.

Fixpoint find_age (ts : list token) : option nat :=
  match ts with
  | [] => None
  | t :: rest =>
      match age_here ts with
      | Some n => Some n
      | None => find_age rest
      end
  end.

(** *** Locations: gazetteer lookup *)

Fixpoint starts_with (pat ts : list token) : bool :=
  match pat, ts with
  | [], _ => true
  | p :: pat', t :: ts' => token_eqb p t && starts_with pat' ts'
  | _ :: _, [] => false
  end.

Fixpoint occurs_in (pat ts : list token) : bool :=
  match ts with
  | [] => false
  | _ :: rest => starts_with pat ts || occurs_in pat rest
  end.

(** A gazetteer entry is found when it occurs in the text as whole
    words. *)
Definition mentions (text : string) (place : string) : bool :=
  match tokenize (list_ascii_of_string place) with
  | [] => false
  | pat => occurs_in pat (tokenize (list_ascii_of_string text))
  end.

(** The strength the pattern path reports: the cap of 0.5. *)
Definition pattern_strength : Q := (1 # 2)%Q.

Definition entity (f : field) (v : fvalue) : ExtractedEntity :=
  {| efield := f; evalue := v; strength := pattern_strength |}.

Definition optional {A B} (f : A -> B) (o : option A) : list B :=
  match o with
  | Some a => [f a]
  | None => []
  end.

Section Strategies.
(** The known-city/state gazetteer is configuration. *)
Variable gazetteer : list string.

(** Modelled from the spec: the pattern-based strategy of the Entity
    Extractor (the Python [services/llm_processor.py] is not among the
    sources): a capitalized word sequence for the name, the
    digits-then-"years old" pattern for the age, a gazetteer lookup
    for the location, each reported at the capped strength. *)
Definition extract_patterns (text : string) : list ExtractedEntity :=
  let ts := tokenize (list_ascii_of_string text) in
  optional (fun n => entity name (Text n)) (find_name ts)
  ++ optional (fun a => entity age (Number a)) (find_age ts)
  ++ optional (fun l => entity location (Text l))
       (find (mentions text) gazetteer).

(** What the AI backend client answers to [extractEntities(text)]. *)
Inductive backend_reply : Type :=
| Entities (es : list ExtractedEntity)
| Malformed (raw : string)
| BackendError (message : string).

Definition backend : Type := string -> backend_reply.

(** Modelled from the spec: the AI-assisted strategy (the Python
    [services/llm_processor.py] is not among the sources): the
    backend's entities, or the pattern path when the backend errors or
    answers something malformed. *)
Definition extract_ai (ask : backend) (text : string)
  : list ExtractedEntity :=
  match ask text with
  | Entities es => es
  | Malformed _ | BackendError _ => extract_patterns text
  end.

(** The strategy is selected by configuration. *)
Inductive strategy : Type :=
| AIAssisted (ask : backend)
| PatternBased.

Definition extract (cfg : strategy) (text : string)
  : list ExtractedEntity :=
  match cfg with
  | AIAssisted ask => extract_ai ask text
  | PatternBased => extract_patterns text
  end.

End Strategies.

Definition summary (es : list ExtractedEntity) : list (field * fvalue) :=
  map (fun e => (efield e, evalue e)) es.

(** The literal input of the extraction-fallback property. *)
Definition sample_text : string :=
  "John Smith, 34 years old, lives in Austin".

(** A backend that is down. *)
Definition failing_backend : backend :=
  fun _ => BackendError "unavailable".

End Extractor.

(* ================================================================== *)
(** ** Correlator *)
(* ================================================================== *)

Module Correlator.
Import Core.
Local Open Scope R_scope.

Definition SourceId : Type := string.

(** Modelled from the spec: the Correlator's atomic unit (the Python
    [services/aggregator.py] is not among the sources).  One
    (field, value, originSourceId, strength) tuple, with the [fetchedAt]
    of the payload it came from. *)
Record FieldAssertion : Type := {
  afield : field;
  avalue : fvalue;
  origin : SourceId;
  astrength : R;
  fetchedAt : Z
}.

(** Modelled from the spec: normalization for grouping (the Python
    [services/aggregator.py] is not among the sources).  Case-insensitive
    trim for strings; an age given as one number overlaps only itself, so
    it is its own normal form. *)
Definition lower (c : ascii) : ascii :=
  if is_upper c then ascii_of_nat (nat_of_ascii c + 32) else c.

Fixpoint drop_spaces (s : list ascii) : list ascii :=
  match s with
  | c :: rest => if is_space c then drop_spaces rest else s
  | [] => []
  end.

Definition trim (s : list ascii) : list ascii :=
  rev (drop_spaces (rev (drop_spaces s))).

Definition normalize (v : fvalue) : fvalue :=
  match v with
  | Text s =>
      Text (string_of_list_ascii
              (map lower (trim (list_ascii_of_string s))))
  | Number n => Number n
  end.

(** Assertions that agree on the normalized value. *)
Record group : Type := {
  key : fvalue;
  members : list FieldAssertion
}.

Fixpoint add_to_groups (a : FieldAssertion) (gs : list group)
  : list group :=
  match gs with
  | [] => [ {| key := normalize (avalue a); members := [a] |} ]
  | g :: rest =>
      if fvalue_eqb (key g) (normalize (avalue a))
      then {| key := key g; members := members g ++ [a] |} :: rest
      else g :: add_to_groups a rest
  end.

Definition group_by_value (l : list FieldAssertion) : list group :=
  fold_left (fun gs a => add_to_groups a gs) l [].

(** The distinct source ids of a list, each once. *)
Fixpoint distinct (ids : list SourceId) : list SourceId :=
  match ids with
  | [] => []
  | i :: rest =>
      if existsb (String.eqb i) rest then distinct rest
      else i :: distinct rest
  end.

Definition sources (g : group) : list SourceId :=
  distinct (map origin (members g)).

Definition distinctSourceCount (g : group) : nat :=
  List.length (sources g).

Definition sum_strength (l : list FieldAssertion) : R :=
  fold_right (fun a acc => astrength a + acc) 0 l.

(** Modelled from the spec: the group score
    [sum(strength_i) * log(1 + distinctSourceCount)] (the Python
    [services/aggregator.py] is not among the sources). *)
Definition score (g : group) : R :=
  sum_strength (members g) * ln (1 + INR (distinctSourceCount g)).

Definition total_score (gs : list group) : R :=
  fold_right (fun g acc => score g + acc) 0 gs.

(** The most recent [fetchedAt] among a group's assertions. *)
Definition latest (g : group) : Z :=
  match members g with
  | [] => 0%Z
  | a :: rest =>
      fold_left (fun m x => Z.max m (fetchedAt x)) rest (fetchedAt a)
  end.

(** Modelled from the spec: the order on groups (the Python
    [services/aggregator.py] is not among the sources).  [g] is preferred
    to [h] on a higher score, or on an equal score and a more recent
    assertion. *)
Definition beats (g h : group) : bool :=
  if Rlt_dec (score h) (score g) then true
  else if Rlt_dec (score g) (score h) then false
  else (latest h <? latest g)%Z.

Definition best (first : group) (rest : list group) : group :=
  fold_left (fun b g => if beats g b then g else b) rest first.

Definition representative (g : group) : fvalue :=
  match members g with
  | a :: _ => avalue a
  | [] => key g
  end.

Definition bounded (x : R) : R := Rmax 0 (Rmin 1 x).

(** One scalar entry of the CorrelatedProfile. *)
Record ProfileField : Type := {
  value : fvalue;
  confidence : R;
  contributingSources : list SourceId
}.

(** Modelled from the spec: the Correlator's algorithm for one scalar
    field (the Python [services/aggregator.py] is not among the
    sources).  No assertion: the field is omitted.  One assertion: its
    raw strength.  Otherwise the best group, with confidence
    [score / sum(all scores)] bounded to [0,1]; over the reals a quotient
    by a zero sum is 0. *)
Definition correlate_field (f : field) (all : list FieldAssertion)
  : option ProfileField :=
  match filter (fun a => field_eqb (afield a) f) all with
  | [] => None
  | [a] =>
      Some {| value := avalue a;
              confidence := astrength a;
              contributingSources := [origin a] |}
  | l =>
      match group_by_value l with
      | [] => None
      | g :: rest =>
          let w := best g rest in
          Some {| value := representative w;
                  confidence :=
                    bounded (score w / total_score (g :: rest));
                  contributingSources := sources w |}
      end
  end.

(** Three assertions about a name: sources A and B agree on
    "Jane Doe" up to case and blanks, source C says "Janet Doe" and was
    fetched last; all carry the strength [s]. *)
Definition jane_A (s : R) : FieldAssertion :=
  {| afield := name; avalue := Text "Jane Doe"; origin := "A";
     astrength := s; fetchedAt := 1 |}.

Definition jane_B (s : R) : FieldAssertion :=
  {| afield := name; avalue := Text " jane doe"; origin := "B";
     astrength := s; fetchedAt := 2 |}.

Definition janet_C (s : R) : FieldAssertion :=
  {| afield := name; avalue := Text "Janet Doe"; origin := "C";
     astrength := s; fetchedAt := 3 |}.

End Correlator.

(* ================================================================== *)
(** ** server.js and the upload middleware *)
(* ================================================================== *)

From Stdlib Require Import DecimalPos DecimalZ.

(* ================================================================== *)
(** ** What travels between the server and a client *)
(* ================================================================== *)

Module Json.
Import JS Http.

(** An item of an array as [JSON.stringify] writes it: [undefined]
    becomes [null]. *)
Definition item (f : value -> value) (i : value) : value :=
  match i with
  | Undefined => Null
  | _ => f i
  end.

(** The properties of an object as [JSON.stringify] writes them: those
    whose value is [undefined] are left out. *)
Fixpoint written (f : value -> value) (props : object) : object :=
  match props with
  | [] => []
  | (k, v) :: rest =>
      match v with
      | Undefined => written f rest
      | _ => (k, f v) :: written f rest
      end
  end.

(** [JSON.parse(JSON.stringify(v))]: what a client parses out of the
    body [res.json(v)] sends.  A number that is not finite is written as
    [null], and the negative zero as [0]. *)
Fixpoint wire (v : value) : value :=
  match v with
  | Undefined => Undefined
  | Null => Null
  | Bool b => Bool b
  | Num x =>
      if PrimFloat.is_nan x || PrimFloat.is_infinity x then Null
      else if PrimFloat.eqb x 0%float then Num 0%float
      else Num x
  | Str s => Str s
  | Arr items => Arr (map (item wire) items)
  | Obj props => Obj (written wire props)
  end.

(** The response as the client reads it: the status, and the parsed
    body. *)
Definition received (r : response) : response :=
  {| status := status r; payload := wire (payload r) |}.

End Json.

Module Server.
Import JS Http.
Local Open Scope handler_scope.

Section App.
Variable toISOString : Z -> string.

(** GET /api/health *)
Definition health : M response :=
  now <- date_now ;;
  ret (json 200 (Obj [("status", Str "ok");
                      ("message", Str "Facial Recognition API is running");
                      ("timestamp", Str (toISOString now))])).

End App.

(** The error-handling middleware: what is answered when a middleware
    passes an error on, [message] being its [err.message]. *)
Definition error_handler (message : string) : response :=
  json 500 (Obj [("error", Str "Something went wrong!");
                 ("message", Str message)]).

End Server.

Module Upload.
Import JS Http.
Local Open Scope handler_scope.

(** A file part of a multipart body: the form field it was sent under
    and the name of the file. *)
Record file_part : Type := {
  fieldname : string;
  part_name : string
}.

(** What the upload middleware leaves: [req.file] (undefined when the
    body has no file part), or the error it passes on, raised for the
    file part under [field]. *)
Inductive uploaded : Type :=
| Accepted (f : option multer_file)
| Refused (field : string).

Section Multer.
(** Node's [path.extname] and [path.join], and the [message] of the
    error multer raises for a file part it does not expect. *)
Variable extname : string -> string.
Variable join : string -> string -> string.
Variable multer_message : string -> string.

(** The disk storage handling one file: the [destination] and
    [filename] callbacks name it, [filename] reading the clock. *)
Definition store (original : string) : M multer_file :=
  now <- date_now ;;
  let stored := FacialRecognition.storage_filename extname now original in
  ret {| originalname := original;
         filename := stored;
         path := join FacialRecognition.storage_destination stored |}.

(** [upload.single('video')] over the file parts of the body, in the
    order they arrive.  One file under [video] is expected: it is stored
    and left in [req.file].  A file part under any other field, or any
    file part after the first, is refused with an error; a body without
    file parts leaves [req.file] undefined. *)
Definition single (parts : list file_part) : M uploaded :=
  match parts with
  | [] => ret (Accepted None)
  | first :: rest =>
      if String.eqb (fieldname first) "video" then
        f <- store (part_name first) ;;
        match rest with
        | [] => ret (Accepted (Some f))
        | next :: _ => ret (Refused (fieldname next))
        end
      else ret (Refused (fieldname first))
  end.

(** The time it takes to write the upload to disk, between the storage
    callback and the handler. *)
Definition elapse (dt : Z) : M unit :=
  fun w => (tt, {| personDatabase := personDatabase w;
                   clock := clock w + dt;
                   log := log w |}).

(** POST /api/facial-recognition/process as registered: the middleware,
    then the handler; an error of the middleware goes to the
    application's error handler instead. *)
Definition process_route (parts : list file_part) (dt : Z) (req : request)
  : M response :=
  u <- single parts ;;
  match u with
  | Refused field => ret (Server.error_handler (multer_message field))
  | Accepted f =>
      elapse dt ;;;
      FacialRecognition.process
        {| query := query req; params := params req;
           body := body req; file := f |}
  end.

End Multer.

End Upload.

(* ================================================================== *)
(** ** public/script.js *)
(* ================================================================== *)

Module Script.
Import JS Http.

(** Strings are read as sequences of code units below 256. *)
Definition nl : string := String (ascii_of_nat 10) "".
Definition dq : string := String (ascii_of_nat 34) "".

(** *** The parts of the language the script relies on *)

(** Why an evaluation stops with an exception. *)
Inductive cause : Type :=
| NetworkFailure (message : string)
| ReadOfNothing
| NotAFunction
| NotPrimitive.

Inductive result (A : Type) : Type :=
| Ok (a : A)
| Throw (c : cause).

Arguments Ok {A} a.
Arguments Throw {A} c.

Definition and_then {A B} (r : result A) (k : A -> result B) : result B :=
  match r with
  | Ok a => k a
  | Throw c => Throw c
  end.

(** [v.k] for the data properties the script reads.  Reading a property
    of [undefined] or [null] throws; a primitive has none of these
    properties, except the [length] of a string; an array has its
    [length]. *)
Definition read (v : value) (k : string) : result value :=
  match v with
  | Undefined | Null => Throw ReadOfNothing
  | Obj o => Ok (get k o)
  | Arr items =>
      Ok (if String.eqb k "length" then of_nat (List.length items)
          else Undefined)
  | Str s =>
      Ok (if String.eqb k "length" then of_nat (String.length s)
          else Undefined)
  | Bool _ | Num _ => Ok Undefined
  end.

(** The white space [String.prototype.trim] removes, among code units
    below 256: TAB, LF, VT, FF, CR, space and the no-break space. *)
Definition is_white_space (c : ascii) : bool :=
  let n := nat_of_ascii c in
  (n =? 32)%nat || ((9 <=? n)%nat && (n <=? 13)%nat) || (n =? 160)%nat.

Fixpoint trim_start (s : list ascii) : list ascii :=
  match s with
  | c :: rest => if is_white_space c then trim_start rest else s
  | [] => []
  end.

Definition trim_chars (s : list ascii) : list ascii :=
  rev (trim_start (rev (trim_start s))).

(** [s.trim()] *)
Definition trim (s : string) : string :=
  string_of_list_ascii (trim_chars (list_ascii_of_string s)).

(** [s.split(sep)] for a one-character separator: the pieces between
    the separators, at least one piece. *)
Fixpoint split_chars (sep : ascii) (s : list ascii) : list (list ascii) :=
  match s with
  | [] => [[]]
  | c :: rest =>
      if Ascii.eqb c sep then [] :: split_chars sep rest
      else
        match split_chars sep rest with
        | piece :: pieces => (c :: piece) :: pieces
        | [] => [[c]]
        end
  end.

Definition split (sep : ascii) (s : string) : list string :=
  map string_of_list_ascii (split_chars sep (list_ascii_of_string s)).

Section Runtime.
(** [Number.prototype.toString], the conversion of a string to a number,
    [toFixed(1)], the wording of the engine's own exceptions, the URL
    query parser of the server, Node's [path] functions and the wording
    of multer's errors are runtime library functions; the script is read
    over any implementation. *)
Variable number_to_string : float -> string.
Variable string_to_number : string -> float.
Variable toFixed1 : float -> string.
Variable engine_message : cause -> string.
Variable parse_query : string -> object.
Variable extname : string -> string.
Variable join : string -> string -> string.
Variable multer_message : string -> string.

(** ToString, as a template literal applies it to [${...}].  An array
    is its items joined by commas, [null] and [undefined] items reading
    as empty; a plain object is "[object Object]", unless it carries a
    [toString] property of its own, which is not callable: then no
    primitive value is found. *)
Fixpoint to_string (v : value) : result string :=
  match v with
  | Undefined => Ok "undefined"
  | Null => Ok "null"
  | Bool true => Ok "true"
  | Bool false => Ok "false"
  | Num x => Ok (number_to_string x)
  | Str s => Ok s
  | Arr items =>
      and_then
        ((fix each (l : list value) : result (list string) :=
            match l with
            | [] => Ok []
            | i :: rest =>
                and_then
                  (match i with
                   | Undefined | Null => Ok ""
                   | _ => to_string i
                   end)
                  (fun s => and_then (each rest) (fun ss => Ok (s :: ss)))
            end) items)
        (fun ss => Ok (String.concat "," ss))
  | Obj o =>
      match lookup "toString" o with
      | Some _ => Throw NotPrimitive
      | None => Ok "[object Object]"
      end
  end.

(** [v > 0] *)
Definition greater_than_zero (v : value) : result bool :=
  match v with
  | Undefined | Null => Ok false
  | Bool b => Ok b
  | Num x => Ok (PrimFloat.ltb 0%float x)
  | Str s => Ok (PrimFloat.ltb 0%float (string_to_number s))
  | Arr _ | Obj _ =>
      and_then (to_string v)
        (fun s => Ok (PrimFloat.ltb 0%float (string_to_number s)))
  end.

(** [v.length > 0] *)
Definition has_positive_length (v : value) : result bool :=
  match v with
  | Undefined | Null => Throw ReadOfNothing
  | Arr items => Ok (negb (Nat.eqb (List.length items) 0))
  | Str s => Ok (negb (Nat.eqb (String.length s) 0))
  | Obj o => greater_than_zero (get "length" o)
  | Bool _ | Num _ => Ok false
  end.

(** [v.length === 0] *)
Definition has_zero_length (v : value) : result bool :=
  match v with
  | Undefined | Null => Throw ReadOfNothing
  | Arr items => Ok (Nat.eqb (List.length items) 0)
  | Str s => Ok (Nat.eqb (String.length s) 0)
  | Obj o => Ok (strict_equals (get "length" o) (Num 0%float))
  | Bool _ | Num _ => Ok false
  end.

(** [error.message] in a [catch]. *)
Definition message_of (c : cause) : string :=
  match c with
  | NetworkFailure m => m
  | _ => engine_message c
  end.

(** *** What the script does to the page *)

Inductive ui_event : Type :=
| PreventDefault
| Status (element message className : string)
| Alert (message : string)
| SetInnerHTML (element html : string)
| AppendChild (element className innerHTML : string)
| ScrollIntoView (element : string)
| FormReset (form : string)
| SetTimeout (callback : string) (ms : nat).

Definition outcome : Type := (list ui_event * world)%type.

(** [fetch] and [response.json()]: the request reaches the handler and
    the page reads the status and the parsed body of the answer, or the
    request is rejected with a message before it reaches the handler. *)
Definition fetch (failure : option string) (handler : M response)
  (w : world) : result response * world :=
  match failure with
  | Some m => (Throw (NetworkFailure m), w)
  | None => let (r, w') := handler w in (Ok (Json.received r), w')
  end.

(** showStatus(element, message, type) *)
Definition showStatus (element message type : string) : ui_event :=
  Status element message ("status-message " ++ type).

(** captureLivestream() *)
Definition captureLivestream (failure : option string)
  (livestreamUrl : string) (w : world) : outcome :=
  let statusDiv := "livestreamStatus" in
  if negb (truthy (Str livestreamUrl)) then
    ([showStatus statusDiv "Please enter a livestream URL" "error"], w)
  else
    let started := [showStatus statusDiv "Capturing livestream..." "info"] in
    match fetch failure
            (Livestream.capture
               {| query := []; params := [];
                  body := [("livestreamUrl", Str livestreamUrl)];
                  file := None |}) w with
    | (Throw c, w') =>
        (started ++ [showStatus statusDiv ("Error: " ++ message_of c) "error"],
         w')
    | (Ok response, w') =>
        let data := payload response in
        let shown :=
          if succeeded response then
            and_then (read data "captureId") (fun captureId =>
            and_then (to_string captureId) (fun id =>
            and_then (read data "note") (fun note =>
            and_then (to_string note) (fun n =>
            Ok (showStatus statusDiv
                  ("Success! Capture ID: " ++ id ++ ". " ++ n)
                  "success")))))
          else
            and_then (read data "error") (fun e =>
            and_then (to_string e) (fun m =>
            Ok (showStatus statusDiv ("Error: " ++ m) "error")))
        in
        match shown with
        | Ok e => (started ++ [e], w')
        | Throw c =>
            (started
             ++ [showStatus statusDiv ("Error: " ++ message_of c) "error"],
             w')
        end
    end.

(** The demo faces of displayMockFaces(). *)
Record mock_face : Type := {
  m_faceId : string;
  m_confidence : float;
  m_personName : string;
  m_age : float;
  m_emotion : string
}.

Definition mockFaces : list mock_face :=
  [ {| m_faceId := "face-001"; m_confidence := 0.95%float;
       m_personName := "John Doe"; m_age := 25%float;
       m_emotion := "happy" |};
    {| m_faceId := "face-002"; m_confidence := 0.89%float;
       m_personName := "Jane Smith"; m_age := 30%float;
       m_emotion := "neutral" |} ].

Definition face_html (face : mock_face) : string :=
  let personName :=
    if truthy (Str (m_personName face)) then m_personName face
    else "Unknown" in
  let faceId := m_faceId face in
  let confidence :=
    toFixed1 (PrimFloat.mul (m_confidence face) 100%float) in
  let age := number_to_string (m_age face) in
  let emotion := m_emotion face in
  String.concat ""
    [ nl; "            <h3>"; personName; "</h3>"; nl;
      "            <p><strong>Face ID:</strong> "; faceId; "</p>"; nl;
      "            <p><strong>Confidence:</strong> "; confidence;
      "%</p>"; nl; "            <p><strong>Age:</strong> ~"; age;
      "</p>"; nl; "            <p><strong>Emotion:</strong> "; emotion;
      "</p>"; nl; "            <button onclick="; dq;
      "searchPersonDetails('"; faceId; "')"; dq;
      ">View Details</button>"; nl; "        " ].

(** displayMockFaces() *)
Definition displayMockFaces : list ui_event :=
  SetInnerHTML "facesContainer" ""
  :: map (fun face => AppendChild "facesContainer" "face-card"
                        (face_html face)) mockFaces.

(** uploadVideo(): [files] are the names of the files selected in the
    input, [dt] the time the server spends storing the upload. *)
Definition uploadVideo (failure : option string) (files : list string)
  (dt : Z) (w : world) : outcome :=
  let statusDiv := "uploadStatus" in
  match files with
  | [] => ([showStatus statusDiv "Please select a video file" "error"], w)
  | first :: _ =>
      let started := [showStatus statusDiv "Processing video..." "info"] in
      match fetch failure
              (Upload.process_route extname join multer_message
                 [{| Upload.fieldname := "video";
                     Upload.part_name := first |}] dt
                 empty_request) w with
      | (Throw c, w') =>
          (started
           ++ [showStatus statusDiv ("Error: " ++ message_of c) "error"],
           w')
      | (Ok response, w') =>
          let data := payload response in
          let shown :=
            if succeeded response then
              and_then (read data "processId") (fun processId =>
              and_then (to_string processId) (fun id =>
              and_then (read data "message") (fun message =>
              and_then (to_string message) (fun m =>
              Ok (showStatus statusDiv
                    ("Success! Process ID: " ++ id ++ ". " ++ m)
                    "success"
                  :: displayMockFaces)))))
            else
              and_then (read data "error") (fun e =>
              and_then (to_string e) (fun m =>
              Ok [showStatus statusDiv ("Error: " ++ m) "error"]))
          in
          match shown with
          | Ok es => (started ++ es, w')
          | Throw c =>
              (started
               ++ [showStatus statusDiv ("Error: " ++ message_of c)
                     "error"],
               w')
          end
      end
  end.

(** *** Person cards *)

Definition interest_tag (interest : string) : string :=
  String.concat ""
    [ "<span class="; dq; "interest-tag"; dq; ">"; interest; "</span>" ].

Definition interests_tags (tags : string) : string :=
  String.concat ""
    [ "<div class="; dq; "interests-tags"; dq; ">"; nl; "            ";
      tags; nl; "           </div>" ].

Definition no_interests : string :=
  String.concat ""
    [ "<span style="; dq; "color: #999;"; dq;
      ">No interests listed</span>" ].

Definition social_row (instagram twitter : string) : string :=
  String.concat ""
    [ "<div class="; dq; "info-row"; dq; ">"; nl;
      "                <span class="; dq; "info-label"; dq;
      ">Social Media:</span>"; nl; "                <span class="; dq;
      "info-value"; dq; ">"; nl; "                    "; instagram;
      " "; nl; "                    "; twitter; nl;
      "                </span>"; nl; "               </div>" ].

Definition card_html
  (name faceId birthday occupation location interestsHtml social : string)
  : string :=
  String.concat ""
    [ nl; "        <h3>"; name; "</h3>"; nl; "        <div class="; dq;
      "info-row"; dq; ">"; nl; "            <span class="; dq;
      "info-label"; dq; ">Face ID:</span>"; nl;
      "            <span class="; dq; "info-value"; dq; ">"; faceId;
      "</span>"; nl; "        </div>"; nl; "        <div class="; dq;
      "info-row"; dq; ">"; nl; "            <span class="; dq;
      "info-label"; dq; ">Birthday:</span>"; nl;
      "            <span class="; dq; "info-value"; dq; ">"; birthday;
      "</span>"; nl; "        </div>"; nl; "        <div class="; dq;
      "info-row"; dq; ">"; nl; "            <span class="; dq;
      "info-label"; dq; ">Occupation:</span>"; nl;
      "            <span class="; dq; "info-value"; dq; ">";
      occupation; "</span>"; nl; "        </div>"; nl;
      "        <div class="; dq; "info-row"; dq; ">"; nl;
      "            <span class="; dq; "info-label"; dq;
      ">Location:</span>"; nl; "            <span class="; dq;
      "info-value"; dq; ">"; location; "</span>"; nl; "        </div>";
      nl; "        <div class="; dq; "info-row"; dq; ">"; nl;
      "            <span class="; dq; "info-label"; dq;
      ">Interests:</span>"; nl; "            <span class="; dq;
      "info-value"; dq; ">"; interestsHtml; "</span>"; nl;
      "        </div>"; nl; "        "; social; nl; "    " ].

Record card : Type := {
  className : string;
  innerHTML : string
}.

Fixpoint each_tag (items : list value) : result (list string) :=
  match items with
  | [] => Ok []
  | interest :: rest =>
      and_then (to_string interest) (fun s =>
      and_then (each_tag rest) (fun tags =>
      Ok (interest_tag s :: tags)))
  end.

(** createPersonCard(person) *)
Definition createPersonCard (person : value) : result card :=
  and_then (read person "interests") (fun interests =>
  and_then
    (if truthy interests then
       and_then (has_positive_length interests) (fun positive =>
       if positive then
         match interests with
         | Arr items =>
             and_then (each_tag items) (fun tags =>
             Ok (interests_tags (String.concat "" tags)))
         | _ => Throw NotAFunction
         end
       else Ok no_interests)
     else Ok no_interests)
    (fun interestsHtml =>
  and_then (read person "name") (fun name =>
  and_then (to_string name) (fun name =>
  and_then (read person "faceId") (fun faceId =>
  and_then (to_string faceId) (fun faceId =>
  and_then (read person "birthday") (fun birthday =>
  and_then (to_string (or_else birthday (Str "Not specified")))
    (fun birthday =>
  and_then (read person "occupation") (fun occupation =>
  and_then (to_string (or_else occupation (Str "Not specified")))
    (fun occupation =>
  and_then (read person "location") (fun location =>
  and_then (to_string (or_else location (Str "Not specified")))
    (fun location =>
  and_then (read person "socialMedia") (fun socialMedia =>
  and_then
    (if truthy socialMedia then
       and_then (read socialMedia "instagram") (fun instagram =>
       if truthy instagram then Ok instagram
       else read socialMedia "twitter")
     else Ok socialMedia)
    (fun listed =>
  and_then
    (if truthy listed then
       and_then (read socialMedia "instagram") (fun instagram =>
       and_then (to_string (or_else instagram (Str ""))) (fun instagram =>
       and_then (read socialMedia "twitter") (fun twitter =>
       and_then (to_string (or_else twitter (Str ""))) (fun twitter =>
       Ok (social_row instagram twitter)))))
     else Ok "")
    (fun social =>
  Ok {| className := "person-card";
        innerHTML := card_html name faceId birthday occupation location
                       interestsHtml social |}))))))))))))))).

Definition placeholder_empty : string :=
  String.concat ""
    [ "<p class="; dq; "placeholder-text"; dq;
      ">No persons in database</p>" ].

Definition placeholder_error (message : string) : string :=
  String.concat ""
    [ "<p class="; dq; "placeholder-text error"; dq; ">Error: ";
      message; "</p>" ].

(** displayPersonDetails(person): the events up to an exception, and the
    exception if one was thrown. *)
Definition displayPersonDetails (person : value)
  : list ui_event * option cause :=
  let cleared := [SetInnerHTML "personDatabase" ""] in
  match createPersonCard person with
  | Throw c => (cleared, Some c)
  | Ok personCard =>
      (cleared
       ++ [AppendChild "personDatabase" (className personCard)
             (innerHTML personCard);
           ScrollIntoView "personDatabase"],
       None)
  end.

(** searchPersonDetails(faceId) *)
Definition searchPersonDetails (failure : option string) (faceId : string)
  (w : world) : outcome :=
  match fetch failure
          (PersonDetails.search
             {| query := parse_query ("faceId=" ++ faceId); params := [];
                body := []; file := None |}) w with
  | (Throw c, w') => ([Alert ("Error: " ++ message_of c)], w')
  | (Ok response, w') =>
      let data := payload response in
      if succeeded response then
        match read data "person" with
        | Throw c => ([Alert ("Error: " ++ message_of c)], w')
        | Ok person =>
            match displayPersonDetails person with
            | (es, None) => (es, w')
            | (es, Some c) =>
                (es ++ [Alert ("Error: " ++ message_of c)], w')
            end
        end
      else
        match and_then (read data "message") to_string with
        | Ok m => ([Alert ("Person not found: " ++ m)], w')
        | Throw c => ([Alert ("Error: " ++ message_of c)], w')
        end
  end.

(** The body of [data.persons.forEach(...)]: one card appended per
    person, until a card cannot be made. *)
Fixpoint append_cards (persons : list value)
  : list ui_event * option cause :=
  match persons with
  | [] => ([], None)
  | person :: rest =>
      match createPersonCard person with
      | Throw c => ([], Some c)
      | Ok personCard =>
          let (es, thrown) := append_cards rest in
          (AppendChild "personDatabase" (className personCard)
             (innerHTML personCard) :: es,
           thrown)
      end
  end.

(** loadPersonDatabase() *)
Definition loadPersonDatabase (failure : option string) (w : world)
  : outcome :=
  let caught (c : cause) :=
    SetInnerHTML "personDatabase" (placeholder_error (message_of c)) in
  match fetch failure (PersonDetails.list_all empty_request) w with
  | (Throw c, w') => ([caught c], w')
  | (Ok response, w') =>
      let data := payload response in
      if succeeded response then
        let cleared := [SetInnerHTML "personDatabase" ""] in
        match read data "persons" with
        | Throw c => (cleared ++ [caught c], w')
        | Ok persons =>
            match has_zero_length persons with
            | Throw c => (cleared ++ [caught c], w')
            | Ok true =>
                (cleared
                 ++ [SetInnerHTML "personDatabase" placeholder_empty],
                 w')
            | Ok false =>
                match persons with
                | Arr items =>
                    match append_cards items with
                    | (es, None) => (cleared ++ es, w')
                    | (es, Some c) => (cleared ++ es ++ [caught c], w')
                    end
                | _ => (cleared ++ [caught NotAFunction], w')
                end
            end
        end
      else
        match and_then (read data "error") to_string with
        | Ok m =>
            ([SetInnerHTML "personDatabase" (placeholder_error m)], w')
        | Throw c => ([caught c], w')
        end
  end.

(** The values of the add-person form. *)
Record person_form : Type := {
  personName : string;
  personBirthday : string;
  personFaceId : string;
  personOccupation : string;
  personLocation : string;
  personInterests : string
}.

(** The [interests] entry of [personData]: split at commas, trimmed,
    empty pieces dropped. *)
Definition parseInterests (raw : string) : list string :=
  filter (fun i => negb (Nat.eqb (String.length i) 0))
    (map trim (split ","%char raw)).

Definition personData (form : person_form) : object :=
  [ ("name", Str (personName form));
    ("birthday", Str (personBirthday form));
    ("faceId", Str (personFaceId form));
    ("occupation", Str (personOccupation form));
    ("location", Str (personLocation form));
    ("interests", Arr (map Str (parseInterests (personInterests form)))) ].

(** addPerson(event) *)
Definition addPerson (failure : option string) (form : person_form)
  (w : world) : outcome :=
  let statusDiv := "addPersonStatus" in
  let started :=
    [PreventDefault; showStatus statusDiv "Adding person..." "info"] in
  match fetch failure
          (PersonDetails.create
             {| query := []; params := []; body := personData form;
                file := None |}) w with
  | (Throw c, w') =>
      (started ++ [showStatus statusDiv ("Error: " ++ message_of c) "error"],
       w')
  | (Ok response, w') =>
      let data := payload response in
      let shown :=
        if succeeded response then
          and_then (read data "person") (fun person =>
          and_then (read person "name") (fun name =>
          and_then (to_string name) (fun name =>
          Ok [ showStatus statusDiv
                 ("Success! " ++ name
                  ++ " has been added to the database.")
                 "success";
               FormReset "addPersonForm";
               SetTimeout "loadPersonDatabase" 1000 ])))
        else
          and_then (read data "error") (fun e =>
          and_then (to_string e) (fun m =>
          Ok [showStatus statusDiv ("Error: " ++ m) "error"]))
      in
      match shown with
      | Ok es => (started ++ es, w')
      | Throw c =>
          (started
           ++ [showStatus statusDiv ("Error: " ++ message_of c) "error"],
           w')
      end
  end.

End Runtime.

(** *** The page after a run of events *)

(** What an element holds: markup assigned to [innerHTML], or a child
    element appended to it. *)
Inductive node : Type :=
| Markup (html : string)
| Child (className innerHTML : string).

Definition apply_event (element : string) (content : list node)
  (e : ui_event) : list node :=
  match e with
  | SetInnerHTML target html =>
      if String.eqb target element then
        if String.eqb html "" then [] else [Markup html]
      else content
  | AppendChild target c h =>
      if String.eqb target element then content ++ [Child c h]
      else content
  | _ => content
  end.

Definition content_after (element : string) (es : list ui_event)
  : list node :=
  fold_left (apply_event element) es [].

(** The message and class a status element shows last. *)
Definition status_after (element : string) (es : list ui_event)
  : option (string * string) :=
  fold_left
    (fun shown e =>
       match e with
       | Status target m c =>
           if String.eqb target element then Some (m, c) else shown
       | _ => shown
       end) es None.

End Script.

(* ================================================================== *)
(** ** Shapes of stored records and of query values *)
(* ================================================================== *)

Module Shapes.
Import JS Http.

(** What the query-string parser can leave under a key: nothing, a
    string, an array or a nested object; never a number, a boolean or
    null. *)
Definition from_query_string (v : value) : bool :=
  match v with
  | Undefined | Str _ | Arr _ | Obj _ => true
  | Null | Bool _ | Num _ => false
  end.

(** The properties of a stored person, in the order of the object
    literals of the router. *)
Definition person_keys : list string :=
  ["id"; "faceId"; "name"; "birthday"; "interests"; "occupation";
   "location"; "socialMedia"].

(** The id of the record at position [i] is the decimal of [i + 1]. *)
Definition ids_sequential (db : list object) : Prop :=
  forall i p, nth_error db i = Some p ->
              get "id" p = Str (toString (Z.of_nat i + 1)).

(** The states that follow a state [w0]: whatever a sequence of requests
    makes of it.  A request to the person-details router runs one of its
    handlers; the other routers and the passing of time leave the array
    as it is, whatever they do to the clock and to the record of
    accesses. *)
Inductive later (w0 : world) : world -> Prop :=
| later_now : later w0 w0
| later_apart : forall w w',
    later w0 w ->
    personDatabase w' = personDatabase w ->
    later w0 w'
| later_step : forall w r req,
    later w0 w -> later w0 (snd (PersonDetails.handle r req w)).

(** A text with no white space in front. *)
Definition starts_clean (s : list ascii) : Prop :=
  match s with
  | [] => True
  | c :: _ => Script.is_white_space c = false
  end.

(** An interest as the form sends it: not empty, no comma, no white
    space at either end. *)
Definition tidy (i : string) : Prop :=
  i <> ""
  /\ ~ In ","%char (list_ascii_of_string i)
  /\ Script.trim i = i.

(** How the server stores a text field of the form: [null] when blank. *)
Definition blank_as_null (s : string) : value :=
  if String.eqb s "" then Null else Str s.

(** The record the server builds from a form sent by the page, at array
    length [n]. *)
Definition form_record (n : nat) (form : Script.person_form) : object :=
  [ ("id", Str (toString (Z.of_nat n + 1)));
    ("faceId", Str (Script.personFaceId form));
    ("name", Str (Script.personName form));
    ("birthday", blank_as_null (Script.personBirthday form));
    ("interests",
     Arr (map Str (Script.parseInterests (Script.personInterests form))));
    ("occupation", blank_as_null (Script.personOccupation form));
    ("location", blank_as_null (Script.personLocation form));
    ("socialMedia", Obj []) ].

(** How a card shows such a field. *)
Definition shown (s : string) : string :=
  if String.eqb s "" then "Not specified" else s.

End Shapes.

(* ================================================================== *)
(** ** Properties of the person-details router *)
(* ================================================================== *)

Module PersonDetailsSpec.
Import JS Http PersonDetails.

Lemma strict_equals_Str (v : value) (s : string) :
  strict_equals v (Str s) = true <-> v = Str s.
Proof.
  destruct v; simpl; split; intros H; try discriminate.
  - apply String.eqb_eq in H. now subst.
  - injection H as ->. apply String.eqb_refl.
Qed.

Lemma find_none_iff {A} (p : A -> bool) (l : list A) :
  find p l = None <-> (forall x, In x l -> p x = false).
Proof.
  induction l as [|a l IH]; simpl.
  - split; [intros _ x [] | reflexivity].
  - destruct (p a) eqn:Ha.
    + split; [discriminate|].
      intros H. rewrite (H a (or_introl eq_refl)) in Ha. discriminate.
    + rewrite IH. split.
      * intros H x [<-|Hx]; auto.
      * intros H x Hx. apply H. now right.
Qed.

(** [find] returns the first match: everything before it fails. *)
Lemma find_some_first {A} (p : A -> bool) (l : list A) (x : A) :
  find p l = Some x ->
  exists before after,
    l = before ++ x :: after
    /\ p x = true
    /\ Forall (fun y => p y = false) before.
Proof.
  induction l as [|a l IH]; simpl; [discriminate|].
  destruct (p a) eqn:Ha.
  - intros [= <-]. exists [], l. repeat split; auto.
  - intros H. destruct (IH H) as (b & c & -> & Hx & Hb).
    exists (a :: b), c. repeat split; auto.
Qed.

Lemma find_app_some {A} (p : A -> bool) (l l' : list A) (x : A) :
  find p l = Some x -> find p (l ++ l') = Some x.
Proof.
  induction l as [|a l IH]; simpl; [discriminate|].
  destruct (p a); auto.
Qed.


Lemma create_cases (req : request) (w : world) :
  (truthy (get "name" (body req)) && truthy (get "faceId" (body req))
     = false
   /\ create req w
      = (json 400 (Obj [("error", Str "Name and faceId are required")]),
         w))
  \/ (truthy (get "name" (body req)) = true
      /\ truthy (get "faceId" (body req)) = true
      /\ let p := newPerson (List.length (personDatabase w)) (body req) in
         create req w
         = (json 201 (Obj [("status", Str "success");
                           ("message", Str "Person added successfully");
                           ("person", Obj p)]),
            {| personDatabase := personDatabase w ++ [p];
               clock := clock w;
               log := (log w ++ [DbLength]) ++ [DbPush] |})).
Proof.
  unfold create.
  destruct (truthy (get "name" (body req))) eqn:Hn;
    destruct (truthy (get "faceId" (body req))) eqn:Hf; simpl; auto.
Qed.

Lemma handle_database (r : route) (req : request) (w : world) :
  personDatabase (snd (handle r req w)) = personDatabase w
  \/ (r = POST_root
      /\ truthy (get "name" (body req)) = true
      /\ truthy (get "faceId" (body req)) = true
      /\ status (fst (handle r req w)) = 201
      /\ personDatabase (snd (handle r req w))
         = personDatabase w
             ++ [newPerson (List.length (personDatabase w)) (body req)]).
Proof.
  destruct r; simpl.
  - left. unfold search.
    destruct (negb (truthy (get "faceId" (query req)))); [reflexivity|].
    unfold bind, db_find.
    destruct (find _ (personDatabase w)); reflexivity.
  - left. unfold getById, bind, db_find.
    destruct (find _ (personDatabase w)); reflexivity.
  - destruct (create_cases req w) as [[_ ->]|(Hn & Hf & ->)].
    + now left.
    + right. repeat split; assumption.
  - now left.
Qed.



Lemma search_miss (req : request) (w : world) :
  truthy (get "faceId" (query req)) = true ->
  (forall p, In p (personDatabase w) ->
             strict_equals (get "faceId" p) (get "faceId" (query req))
             = false) ->
  search req w
  = (json 404
       (Obj [("error", Str "Person not found");
             ("message",
              Str "No matching person found for the given faceId")]),
     record DbFind w).
Proof.
  intros Ht Hmiss. unfold search. rewrite Ht. simpl.
  unfold bind, db_find.
  apply find_none_iff in Hmiss. now rewrite Hmiss.
Qed.

Lemma getById_miss (req : request) (w : world) :
  (forall p, In p (personDatabase w) ->
             strict_equals (get "id" p) (param "personId" req)
             = false) ->
  getById req w
  = (json 404
       (Obj [("error", Str "Person not found");
             ("message", Str "No person found with the given ID")]),
     record DbFind w).
Proof.
  intros Hmiss. unfold getById, bind, db_find.
  apply find_none_iff in Hmiss. now rewrite Hmiss.
Qed.

(** C2, as the router has it: a lookup that reaches [personDatabase] and
    matches no record answers 404 with an [error] property, for the
    faceId search and for the lookup by id alike.  The answer is not a
    2xx one, the database is left as it was, and exactly one [find] was
    made. *)
Theorem lookup_miss_answers_404 :
  forall (sreq ireq : request) (w : world),
    truthy (get "faceId" (query sreq)) = true ->
    (forall p, In p (personDatabase w) ->
               strict_equals (get "faceId" p) (get "faceId" (query sreq))
               = false) ->
    (forall p, In p (personDatabase w) ->
               strict_equals (get "id" p) (param "personId" ireq)
               = false) ->
    let s := search sreq w in
    let i := getById ireq w in
    (status (fst s) = 404
     /\ property "error" (fst s) = Some (Str "Person not found")
     /\ succeeded (fst s) = false
     /\ snd s = record DbFind w)
    /\ (status (fst i) = 404
        /\ property "error" (fst i) = Some (Str "Person not found")
        /\ succeeded (fst i) = false
        /\ snd i = record DbFind w).
Proof.
  intros sreq ireq w Ht Hs Hi. cbv zeta.
  rewrite (search_miss sreq w Ht Hs), (getById_miss ireq w Hi).
  repeat split.
Qed.

Lemma lookup_miss_answers_404_witness :
  status (fst (search (search_for "face-999") (initialWorld 0))) = 404
  /\ status (fst (getById (lookup_id "7") (initialWorld 0))) = 404.
Proof.
  assert (Hs : forall p, In p (personDatabase (initialWorld 0)) ->
               strict_equals (get "faceId" p)
                 (get "faceId" (query (search_for "face-999"))) = false).
  { intros p [<-|[<-|[]]]; reflexivity. }
  assert (Hi : forall p, In p (personDatabase (initialWorld 0)) ->
               strict_equals (get "id" p)
                 (param "personId" (lookup_id "7")) = false).
  { intros p [<-|[<-|[]]]; reflexivity. }
  pose proof (lookup_miss_answers_404 (search_for "face-999")
                (lookup_id "7") (initialWorld 0) eq_refl Hs Hi) as H.
  cbv zeta in H.
  destruct H as [[H1 _] [H2 _]]. split; assumption.
Defined.

(** C2 as stated fails: the search for a faceId that no record carries
    reaches the database (one [find], no match) and is answered with
    status 404 and an [error] property, not with a success-path result
    carrying an empty payload. *)
Lemma search_miss_is_reported_as_error :
  let run := search (search_for "face-999") (initialWorld 0) in
  log (snd run) = [DbFind]
  /\ find (fun p => strict_equals (get "faceId" p) (Str "face-999"))
       initialDatabase = None
  /\ ~ (succeeded (fst run) = true /\ reports_error (fst run) = false).
Proof.
  cbv zeta. repeat split. intros [H _]. discriminate H.
Qed.

(** C3, as the router has it: a person created without a birthday, an
    occupation or a location is stored and returned with that property
    present and set to [null]; missing interests are stored as the empty
    array and missing social media as the empty object. *)
Theorem created_person_defaults :
  forall (req : request) (w : world),
    truthy (get "name" (body req)) = true ->
    truthy (get "faceId" (body req)) = true ->
    exists p,
      personDatabase (snd (create req w)) = personDatabase w ++ [p]
      /\ status (fst (create req w)) = 201
      /\ returned_person (fst (create req w)) = Some p
      /\ (forall k, In k ["birthday"; "occupation"; "location"] ->
                    lookup k (body req) = None ->
                    lookup k p = Some Null)
      /\ (lookup "interests" (body req) = None ->
          lookup "interests" p = Some (Arr []))
      /\ (lookup "socialMedia" (body req) = None ->
          lookup "socialMedia" p = Some (Obj [])).
Proof.
  intros req w Hn Hf.
  destruct (create_cases req w) as [[Hbad _]|(_ & _ & Hrun)].
  { rewrite Hn, Hf in Hbad. discriminate. }
  cbv zeta in Hrun. rewrite Hrun.
  eexists. split; [reflexivity|]. split; [reflexivity|].
  split; [reflexivity|].
  repeat split.
  - intros k [<-|[<-|[<-|[]]]] Hk; simpl;
      unfold get; rewrite Hk; reflexivity.
  - intros Hk. simpl. unfold get. rewrite Hk. reflexivity.
  - intros Hk. simpl. unfold get. rewrite Hk. reflexivity.
Qed.

Lemma created_person_defaults_witness :
  exists p,
    personDatabase
      (snd (create (post [("name", Str "Ann"); ("faceId", Str "face-003")])
              (initialWorld 0)))
    = initialDatabase ++ [p]
    /\ lookup "birthday" p = Some Null.
Proof.
  destruct (created_person_defaults
              (post [("name", Str "Ann"); ("faceId", Str "face-003")])
              (initialWorld 0) eq_refl eq_refl)
    as (p & Hdb & _ & _ & Hnull & _).
  exists p. split; [exact Hdb|].
  apply Hnull; [left; reflexivity|reflexivity].
Defined.

(** C3 as stated fails: a person posted with only a name and a faceId is
    stored, and returned, with [birthday], [occupation] and [location]
    present and null; the properties are not absent. *)
Lemma created_person_carries_null_placeholders :
  let run := create (post [("name", Str "Ann"); ("faceId", Str "face-003")])
               (initialWorld 0) in
  exists p,
    last (personDatabase (snd run)) [] = p
    /\ returned_person (fst run) = Some p
    /\ lookup "birthday" p = Some Null
    /\ lookup "occupation" p = Some Null
    /\ lookup "location" p = Some Null
    /\ ~ (lookup "birthday" p = None
          /\ lookup "occupation" p = None
          /\ lookup "location" p = None).
Proof.
  cbv zeta. eexists. split; [reflexivity|].
  repeat split. intros [H _]. discriminate H.
Qed.

(** C8: the three GET routes leave [personDatabase] as it was; a POST
    answered 400 leaves it as it was; the database changes only under a
    POST answered 201, and then by exactly one record appended at the
    end. *)
Theorem personDatabase_frame :
  forall (r : route) (req : request) (w : world),
    let resp := fst (handle r req w) in
    let w' := snd (handle r req w) in
    (is_get r = true -> personDatabase w' = personDatabase w)
    /\ (r = POST_root -> status resp = 400 ->
        personDatabase w' = personDatabase w)
    /\ (r = POST_root -> status resp = 400 \/ status resp = 201)
    /\ (personDatabase w' <> personDatabase w ->
        r = POST_root /\ status resp = 201)
    /\ (r = POST_root -> status resp = 201 ->
        exists p, personDatabase w' = personDatabase w ++ [p]).
Proof.
  intros r req w. cbv zeta.
  destruct (handle_database r req w) as [Hsame|(-> & _ & _ & Hst & Hdb)].
  - split; [intros _; exact Hsame|].
    split; [intros _ _; exact Hsame|].
    split; [|split].
    + intros ->. simpl.
      destruct (create_cases req w) as [[_ ->]|(_ & _ & ->)]; simpl; auto.
    + intros Hne. now elim Hne.
    + intros -> Hst. exfalso. simpl in *.
      destruct (create_cases req w) as [[_ E]|(_ & _ & E)];
        rewrite E in *; simpl in *; [discriminate|].
      apply (f_equal (@List.length _)) in Hsame.
      rewrite length_app in Hsame. simpl in Hsame. lia.
  - split; [intros Hget; discriminate Hget|].
    split; [intros _ H400; rewrite Hst in H400; discriminate H400|].
    split; [intros _; now right|].
    split; [intros _; now split|].
    intros _ _. eexists. exact Hdb.
Qed.

Lemma personDatabase_frame_witness :
  personDatabase (snd (handle GET_root empty_request (initialWorld 0)))
  = initialDatabase
  /\ exists p,
       personDatabase
         (snd (handle POST_root
                 (post [("name", Str "Ann"); ("faceId", Str "face-003")])
                 (initialWorld 0)))
       = initialDatabase ++ [p].
Proof.
  split.
  - destruct (personDatabase_frame GET_root empty_request (initialWorld 0))
      as [Hget _].
    apply Hget. reflexivity.
  - destruct (personDatabase_frame POST_root
                (post [("name", Str "Ann"); ("faceId", Str "face-003")])
                (initialWorld 0)) as (_ & _ & _ & _ & Hpost).
    apply Hpost; reflexivity.
Defined.




End PersonDetailsSpec.

(* ================================================================== *)
(** ** Properties of the facial-recognition and livestream routers *)
(* ================================================================== *)

Module FacialRecognitionSpec.
Import JS Http.

(** C1: a request that carries none of the inputs its operation requires
    is answered 400 and the world is exactly as before: no database
    access and no clock read was recorded, and [personDatabase] is
    untouched.  This holds for the person search without a (non-empty)
    faceId and the video-process request without an uploaded file, and
    equally for frame analysis without imageData, livestream capture
    without a URL, and person creation without name or faceId. *)
Theorem missing_input_rejected_before_any_work :
  forall (toISOString : Z -> string)
         (sreq preq areq creq nreq : request) (w : world),
    truthy (get "faceId" (query sreq)) = false ->
    file preq = None ->
    truthy (get "imageData" (body areq)) = false ->
    truthy (get "livestreamUrl" (body creq)) = false ->
    truthy (get "name" (body nreq)) && truthy (get "faceId" (body nreq))
    = false ->
    PersonDetails.search sreq w
    = (json 400 (Obj [("error", Str "faceId is required")]), w)
    /\ FacialRecognition.process preq w
       = (json 400 (Obj [("error", Str "No video file uploaded")]), w)
    /\ FacialRecognition.analyze_frame toISOString areq w
       = (json 400 (Obj [("error", Str "Image data is required")]), w)
    /\ Livestream.capture creq w
       = (json 400 (Obj [("error", Str "Livestream URL is required")]), w)
    /\ PersonDetails.create nreq w
       = (json 400 (Obj [("error", Str "Name and faceId are required")]),
          w).
Proof.
  intros iso sreq preq areq creq nreq w Hs Hp Ha Hc Hn.
  repeat split.
  - unfold PersonDetails.search. now rewrite Hs.
  - unfold FacialRecognition.process. now rewrite Hp.
  - unfold FacialRecognition.analyze_frame. now rewrite Ha.
  - unfold Livestream.capture. now rewrite Hc.
  - unfold PersonDetails.create.
    rewrite <- negb_andb, Hn. reflexivity.
Qed.

Lemma missing_input_rejected_before_any_work_witness :
  PersonDetails.search empty_request (PersonDetails.initialWorld 0)
  = (json 400 (Obj [("error", Str "faceId is required")]),
     PersonDetails.initialWorld 0)
  /\ FacialRecognition.process empty_request (PersonDetails.initialWorld 0)
     = (json 400 (Obj [("error", Str "No video file uploaded")]),
        PersonDetails.initialWorld 0).
Proof.
  destruct (missing_input_rejected_before_any_work
              (fun _ => "") empty_request empty_request empty_request
              empty_request empty_request (PersonDetails.initialWorld 0)
              eq_refl eq_refl eq_refl eq_refl eq_refl)
    as (Hsearch & Hprocess & _).
  split; [exact Hsearch|exact Hprocess].
Defined.





(** C6: frame analysis is a function of its input alone.  Two calls
    with the same [imageData], in any two states of the server and at
    any two times, get the same status, the same face count and the same
    list of faces (the body differs at most in [timestamp]); neither
    call changes [personDatabase]. *)
Theorem analyze_frame_deterministic :
  forall (toISOString : Z -> string) (req1 req2 : request)
         (w1 w2 : world),
    get "imageData" (body req1) = get "imageData" (body req2) ->
    let r1 := FacialRecognition.analyze_frame toISOString req1 w1 in
    let r2 := FacialRecognition.analyze_frame toISOString req2 w2 in
    status (fst r1) = status (fst r2)
    /\ property "faces" (fst r1) = property "faces" (fst r2)
    /\ property "facesDetected" (fst r1)
       = property "facesDetected" (fst r2)
    /\ property "error" (fst r1) = property "error" (fst r2)
    /\ (truthy (get "imageData" (body req1)) = true ->
        property "faces" (fst r1)
        = Some (Arr FacialRecognition.mockFaces))
    /\ personDatabase (snd r1) = personDatabase w1
    /\ personDatabase (snd r2) = personDatabase w2.
Proof.
  intros iso req1 req2 w1 w2 Heq. cbv zeta.
  unfold FacialRecognition.analyze_frame. rewrite <- Heq.
  destruct (truthy (get "imageData" (body req1))); simpl;
    repeat split; intros; discriminate.
Qed.

Lemma analyze_frame_deterministic_witness :
  property "faces"
    (fst (FacialRecognition.analyze_frame (fun _ => "t1")
            (FacialRecognition.with_body [("imageData", Str "aGVsbG8=")])
            (PersonDetails.initialWorld 1)))
  = property "faces"
      (fst (FacialRecognition.analyze_frame (fun _ => "t1")
              (FacialRecognition.with_body [("imageData", Str "aGVsbG8=")])
              (PersonDetails.initialWorld 2))).
Proof.
  destruct (analyze_frame_deterministic (fun _ => "t1")
              (FacialRecognition.with_body [("imageData", Str "aGVsbG8=")])
              (FacialRecognition.with_body [("imageData", Str "aGVsbG8=")])
              (PersonDetails.initialWorld 1) (PersonDetails.initialWorld 2)
              eq_refl) as (_ & Hfaces & _).
  exact Hfaces.
Defined.

(** C10: GET /results/:processId answers 200 with status "completed"
    and an empty [detectedFaces] for every processId, whatever was or
    was not processed before; no state is consulted except the clock. *)
Theorem results_always_completed :
  forall (toISOString : Z -> string) (processId : string) (w : world),
    FacialRecognition.results toISOString processId w
    = (json 200 (Obj [("processId", Str processId);
                      ("status", Str "completed");
                      ("detectedFaces", Arr []);
                      ("timestamp", Str (toISOString (clock w)))]),
       record ClockRead w)
    /\ status (fst (FacialRecognition.results toISOString processId w))
       <> 404
    /\ reports_error
         (fst (FacialRecognition.results toISOString processId w))
       = false.
Proof.
  intros iso processId w. repeat split. discriminate.
Qed.

End FacialRecognitionSpec.

(* ================================================================== *)
(** ** Properties of the Entity Extractor *)
(* ================================================================== *)

Module ExtractorSpec.
Import Core Extractor.

Lemma find_only {A} (p : A -> bool) (l : list A) (x : A) :
  In x l -> p x = true ->
  (forall y, In y l -> p y = true -> y = x) ->
  find p l = Some x.
Proof.
  induction l as [|a l IH]; simpl; [intros []|].
  intros Hin Hx Honly. destruct (p a) eqn:Ha.
  - f_equal. apply Honly; auto.
  - destruct Hin as [->|Hin]; [congruence|].
    apply IH; auto.
Qed.

Lemma sample_mentions_Austin : mentions sample_text "Austin" = true.
Proof. reflexivity. Qed.

(** C7: with an AI backend that errors on every text, the extractor
    configured for the AI-assisted path answers from the pattern path.
    On the literal text it yields the name "John Smith", the age 34 and
    the location "Austin" (Austin being the one gazetteer place the text
    mentions), in this order, each at strength at most 1/2. *)
Theorem extraction_falls_back_to_patterns :
  forall (gazetteer : list string) (ask : backend),
    (forall text, exists message, ask text = BackendError message) ->
    In "Austin" gazetteer ->
    (forall place, In place gazetteer ->
                   mentions sample_text place = true ->
                   place = "Austin") ->
    let es := extract gazetteer (AIAssisted ask) sample_text in
    summary es = [ (name, Text "John Smith");
                   (age, Number 34);
                   (location, Text "Austin") ]
    /\ Forall (fun e => (strength e <= 1 # 2)%Q) es.
Proof.
  intros gaz ask Hask Hin Honly. cbv zeta.
  unfold extract, extract_ai.
  destruct (Hask sample_text) as [message ->].
  unfold extract_patterns.
  rewrite (find_only (mentions sample_text) gaz "Austin"
             Hin sample_mentions_Austin Honly).
  replace (find_name _) with (Some "John Smith")
    by (vm_compute; reflexivity).
  replace (find_age _) with (Some 34%nat) by (vm_compute; reflexivity).
  cbn [optional app]. split; [reflexivity|].
  repeat (apply Forall_cons; [apply Qle_refl|]). apply Forall_nil.
Qed.

Lemma extraction_falls_back_to_patterns_witness :
  summary (extract ["Seattle"; "Austin"; "New York"]
             (AIAssisted failing_backend) sample_text)
  = [ (name, Text "John Smith");
      (age, Number 34);
      (location, Text "Austin") ].
Proof.
  apply (extraction_falls_back_to_patterns
           ["Seattle"; "Austin"; "New York"] failing_backend).
  - intros text. exists "unavailable". reflexivity.
  - right. left. reflexivity.
  - intros place [<-|[<-|[<-|[]]]] H;
      [discriminate H | reflexivity | discriminate H].
Defined.

End ExtractorSpec.

(* ================================================================== *)
(** ** Properties of the Correlator *)
(* ================================================================== *)

Module CorrelatorSpec.
Import Core Correlator.
Local Open Scope R_scope.

Lemma fvalue_eqb_eq (a b : fvalue) : fvalue_eqb a b = true <-> a = b.
Proof.
  destruct a, b; simpl; split; intros H; try discriminate.
  - apply String.eqb_eq in H. now subst.
  - injection H as ->. apply String.eqb_refl.
  - apply Nat.eqb_eq in H. now subst.
  - injection H as ->. apply Nat.eqb_refl.
Qed.

Lemma fvalue_eqb_neq (a b : fvalue) : a <> b -> fvalue_eqb a b = false.
Proof.
  intros H. destruct (fvalue_eqb a b) eqn:E; [|reflexivity].
  apply fvalue_eqb_eq in E. contradiction.
Qed.

Lemma fvalue_eqb_refl (a : fvalue) : fvalue_eqb a a = true.
Proof. now apply fvalue_eqb_eq. Qed.

Lemma field_eqb_refl (f : field) : field_eqb f f = true.
Proof. now destruct f. Qed.

Lemma ln_2_pos : 0 < ln 2.
Proof. pose proof ln_lt_2. lra. Qed.

Lemma ln_2_lt_ln_3 : ln 2 < ln 3.
Proof. apply ln_increasing; lra. Qed.

(** Two equal positive strengths behind one value outweigh one behind
    another. *)
Lemma pair_outscores_single (s : R) :
  0 < s -> s * ln 2 < (s + s) * ln 3.
Proof.
  intros Hs. pose proof ln_2_pos. pose proof ln_2_lt_ln_3. nra.
Qed.

Lemma bounded_id (x : R) : 0 <= x <= 1 -> bounded x = x.
Proof.
  intros [H0 H1]. unfold bounded.
  rewrite (Rmin_right 1 x H1). now apply Rmax_right.
Qed.

Lemma share_above_half (a b : R) :
  0 < b -> b < a -> 1 / 2 < a / (a + b) <= 1.
Proof.
  intros Hb Hab.
  assert (Ht : 0 < a + b) by lra.
  split.
  - apply (Rmult_lt_reg_r (a + b)); [exact Ht|].
    replace (a / (a + b) * (a + b)) with a by (field; lra). lra.
  - apply (Rmult_le_reg_r (a + b)); [exact Ht|].
    replace (a / (a + b) * (a + b)) with a by (field; lra). lra.
Qed.

Section Corroboration.
Variable f : field.
Variables c1 c2 d : FieldAssertion.
Variable s : R.
Hypothesis Hf1 : afield c1 = f.
Hypothesis Hf2 : afield c2 = f.
Hypothesis Hfd : afield d = f.
Hypothesis Hs : 0 < s.
Hypothesis Hs1 : astrength c1 = s.
Hypothesis Hs2 : astrength c2 = s.
Hypothesis Hsd : astrength d = s.
Hypothesis Hindep : origin c1 <> origin c2.
Hypothesis Hagree : normalize (avalue c1) = normalize (avalue c2).
Hypothesis Hdiffer : normalize (avalue d) <> normalize (avalue c1).

Let corroborated : group :=
  {| key := normalize (avalue c1); members := [c1; c2] |}.
Let lone : group :=
  {| key := normalize (avalue d); members := [d] |}.

Lemma score_corroborated : score corroborated = (s + s) * ln 3.
Proof.
  unfold score, distinctSourceCount, sources. simpl.
  destruct (String.eqb (origin c1) (origin c2)) eqn:E.
  { apply String.eqb_eq in E. contradiction. }
  simpl. rewrite Hs1, Hs2.
  replace (s + (s + 0)) with (s + s) by lra.
  replace (1 + (1 + 1)) with 3 by lra. reflexivity.
Qed.

Lemma score_lone : score lone = s * ln 2.
Proof.
  unfold score, distinctSourceCount, sources. simpl.
  rewrite Hsd.
  replace (s + 0) with s by lra.
  replace (1 + 1) with 2 by lra. reflexivity.
Qed.

Lemma corroborated_beats_lone : beats corroborated lone = true.
Proof.
  unfold beats. rewrite score_corroborated, score_lone.
  destruct (Rlt_dec (s * ln 2) ((s + s) * ln 3)) as [_|H];
    [reflexivity|].
  elim H. now apply pair_outscores_single.
Qed.

Lemma lone_loses_to_corroborated : beats lone corroborated = false.
Proof.
  unfold beats. rewrite score_corroborated, score_lone.
  pose proof (pair_outscores_single s Hs) as Hlt.
  destruct (Rlt_dec ((s + s) * ln 3) (s * ln 2)) as [H|_]; [lra|].
  destruct (Rlt_dec (s * ln 2) ((s + s) * ln 3)) as [_|H];
    [reflexivity|contradiction].
Qed.

Local Ltac settle_groups :=
  unfold group_by_value; simpl;
  repeat (first
            [ rewrite <- Hagree
            | rewrite fvalue_eqb_refl
            | rewrite (fvalue_eqb_neq _ _ Hdiffer)
            | rewrite (fvalue_eqb_neq _ _ (fun H => Hdiffer (eq_sym H))) ];
          simpl);
  reflexivity.

Lemma groups_front :
  group_by_value [c1; c2; d] = [corroborated; lone].
Proof. settle_groups. Qed.

Lemma groups_middle :
  group_by_value [c1; d; c2] = [corroborated; lone].
Proof. settle_groups. Qed.

Lemma groups_back :
  group_by_value [d; c1; c2] = [lone; corroborated].
Proof. settle_groups. Qed.

Let share : R := ((s + s) * ln 3) / ((s + s) * ln 3 + s * ln 2).

Lemma share_bounds : 1 / 2 < share <= 1.
Proof.
  apply share_above_half.
  - pose proof ln_2_pos. nra.
  - now apply pair_outscores_single.
Qed.

Lemma confidence_front :
  bounded (score corroborated / total_score [corroborated; lone])
  = share.
Proof.
  unfold total_score. cbn [fold_right].
  rewrite score_corroborated, score_lone, Rplus_0_r.
  apply bounded_id. pose proof share_bounds. unfold share in *. lra.
Qed.

Lemma confidence_back :
  bounded (score corroborated / total_score [lone; corroborated])
  = share.
Proof.
  unfold total_score. cbn [fold_right].
  rewrite score_corroborated, score_lone, Rplus_0_r.
  rewrite (Rplus_comm (s * ln 2)).
  apply bounded_id. pose proof share_bounds. unfold share in *. lra.
Qed.

Lemma sources_corroborated :
  sources corroborated = [origin c1; origin c2].
Proof.
  unfold sources. simpl.
  destruct (String.eqb (origin c1) (origin c2)) eqn:E; [|reflexivity].
  apply String.eqb_eq in E. contradiction.
Qed.

Lemma keep_all (l : list FieldAssertion) :
  Forall (fun a => afield a = f) l ->
  filter (fun a => field_eqb (afield a) f) l = l.
Proof.
  induction 1 as [|a l Ha _ IH]; simpl; [reflexivity|].
  now rewrite Ha, field_eqb_refl, IH.
Qed.

(** Wherever the lone assertion arrives, the corroborated group wins
    with the same confidence. *)
Lemma correlate_any_arrival (l : list FieldAssertion) :
  In l [[c1; c2; d]; [c1; d; c2]; [d; c1; c2]] ->
  correlate_field f l
  = Some {| value := avalue c1;
            confidence := share;
            contributingSources := [origin c1; origin c2] |}.
Proof.
  intros [<-|[<-|[<-|[]]]]; unfold correlate_field;
    (rewrite keep_all by (repeat constructor; assumption)).
  - rewrite groups_front. cbv beta iota zeta.
    unfold best. cbn [fold_left].
    rewrite lone_loses_to_corroborated, confidence_front,
      sources_corroborated.
    reflexivity.
  - rewrite groups_middle. cbv beta iota zeta.
    unfold best. cbn [fold_left].
    rewrite lone_loses_to_corroborated, confidence_front,
      sources_corroborated.
    reflexivity.
  - rewrite groups_back. cbv beta iota zeta.
    unfold best. cbn [fold_left].
    rewrite corroborated_beats_lone, confidence_back,
      sources_corroborated.
    reflexivity.
Qed.

End Corroboration.

Lemma permutation_of_three {A} (x y z : A) (l : list A) :
  Permutation l [x; y; z] ->
  In l [[x; y; z]; [x; z; y]; [z; x; y];
        [y; x; z]; [y; z; x]; [z; y; x]].
Proof.
  intros H. pose proof (Permutation_length H) as Hlen.
  destruct l as [|p [|q [|r [|]]]]; try discriminate Hlen.
  assert (Hp : In p [x; y; z]).
  { apply (Permutation_in _ H). now left. }
  destruct Hp as [<-|[<-|[<-|[]]]].
  - apply Permutation_cons_inv, Permutation_sym in H.
    apply Permutation_length_2_inv in H.
    destruct H as [[= -> ->]|[= -> ->]]; simpl; auto.
  - apply (Permutation_cons_app_inv [x] [z]), Permutation_sym in H.
    apply Permutation_length_2_inv in H.
    destruct H as [[= -> ->]|[= -> ->]]; simpl; auto 7.
  - apply (Permutation_cons_app_inv [x; y] []), Permutation_sym in H.
    apply Permutation_length_2_inv in H.
    destruct H as [[= -> ->]|[= -> ->]]; simpl; auto 7.
Qed.

(** C5, for strengths above zero: two assertions from distinct sources
    that agree on the normalized value, and one assertion of a different
    value, all of the same strength [s > 0], in any order of arrival.
    The group scores are [(s + s) * ln 3] and [s * ln 2]; the
    corroborated value is selected, both sources are credited, and the
    confidence is the corroborated score over the sum of the two, which
    is above 1/2. *)
Theorem corroborated_value_wins :
  forall (f : field) (a1 a2 b : FieldAssertion) (s : R)
         (l : list FieldAssertion),
    0 < s ->
    afield a1 = f -> afield a2 = f -> afield b = f ->
    astrength a1 = s -> astrength a2 = s -> astrength b = s ->
    origin a1 <> origin a2 ->
    normalize (avalue a1) = normalize (avalue a2) ->
    normalize (avalue b) <> normalize (avalue a1) ->
    Permutation l [a1; a2; b] ->
    exists r,
      correlate_field f l = Some r
      /\ normalize (value r) = normalize (avalue a1)
      /\ confidence r
         = ((s + s) * ln (1 + 2)) / ((s + s) * ln (1 + 2) + s * ln (1 + 1))
      /\ 1 / 2 < confidence r
      /\ In (origin a1) (contributingSources r)
      /\ In (origin a2) (contributingSources r).
Proof.
  intros f a1 a2 b s l Hs Hf1 Hf2 Hfb Hs1 Hs2 Hsb Hindep Hagree Hdiffer Hl.
  replace (1 + 2) with 3 by lra. replace (1 + 1) with 2 by lra.
  assert (Hshare : 1 / 2 < ((s + s) * ln 3) / ((s + s) * ln 3 + s * ln 2)).
  { apply share_above_half.
    - pose proof ln_2_pos. nra.
    - now apply pair_outscores_single. }
  assert (Hdiffer' : normalize (avalue b) <> normalize (avalue a2))
    by now rewrite <- Hagree.
  apply permutation_of_three in Hl.
  assert (Hcase :
            In l [[a1; a2; b]; [a1; b; a2]; [b; a1; a2]]
            \/ In l [[a2; a1; b]; [a2; b; a1]; [b; a2; a1]]).
  { simpl in Hl |- *. intuition. }
  destruct Hcase as [Hin|Hin].
  - rewrite (correlate_any_arrival f a1 a2 b s Hf1 Hf2 Hfb Hs Hs1 Hs2 Hsb
               Hindep Hagree Hdiffer l Hin).
    eexists. split; [reflexivity|]. simpl. intuition.
  - rewrite (correlate_any_arrival f a2 a1 b s Hf2 Hf1 Hfb Hs Hs2 Hs1 Hsb
               (fun H => Hindep (eq_sym H)) (eq_sym Hagree) Hdiffer' l Hin).
    eexists. split; [reflexivity|]. simpl. intuition.
Qed.

Lemma corroborated_value_wins_witness :
  exists r,
    correlate_field name [jane_A 1; jane_B 1; janet_C 1] = Some r
    /\ normalize (value r) = Text "jane doe"
    /\ 1 / 2 < confidence r.
Proof.
  assert (Hpos : 0 < 1) by lra.
  assert (Hindep : origin (jane_A 1) <> origin (jane_B 1))
    by discriminate.
  assert (Hagree : normalize (avalue (jane_A 1))
                   = normalize (avalue (jane_B 1))) by reflexivity.
  assert (Hdiffer : normalize (avalue (janet_C 1))
                    <> normalize (avalue (jane_A 1))) by discriminate.
  destruct (corroborated_value_wins name (jane_A 1) (jane_B 1) (janet_C 1) 1
              [jane_A 1; jane_B 1; janet_C 1]
              Hpos eq_refl eq_refl eq_refl eq_refl eq_refl eq_refl
              Hindep Hagree Hdiffer (Permutation_refl _))
    as (r & Hr & Hv & _ & Hc & _).
  exists r. split; [exact Hr|]. split; [exact Hv|exact Hc].
Defined.

Lemma score_of_zero_strengths (g : group) :
  Forall (fun a => astrength a = 0) (members g) -> score g = 0.
Proof.
  intros H. unfold score.
  assert (E : sum_strength (members g) = 0).
  { induction H as [|a l Ha _ IH]; simpl; [reflexivity|].
    rewrite Ha, IH. lra. }
  rewrite E. apply Rmult_0_l.
Qed.

(** C5 as stated fails at strength zero: two sources agree on
    "Jane Doe", a third asserts "Janet Doe" more recently, all at
    strength 0.  Every group scores 0, the tie goes to the most recent
    assertion, and the lone value is selected; its confidence, 0 over a
    sum of 0, is not above 1/2. *)
Lemma zero_strength_corroboration_loses :
  origin (jane_A 0) <> origin (jane_B 0)
  /\ normalize (avalue (jane_A 0)) = normalize (avalue (jane_B 0))
  /\ normalize (avalue (janet_C 0)) <> normalize (avalue (jane_A 0))
  /\ exists r,
       correlate_field name [jane_A 0; jane_B 0; janet_C 0] = Some r
       /\ value r = Text "Janet Doe"
       /\ confidence r = 0
       /\ ~ (normalize (value r) = normalize (avalue (jane_A 0))
             /\ 1 / 2 < confidence r).
Proof.
  split; [discriminate|]. split; [reflexivity|]. split; [discriminate|].
  assert (Hg : group_by_value [jane_A 0; jane_B 0; janet_C 0]
               = [ {| key := Text "jane doe";
                      members := [jane_A 0; jane_B 0] |};
                   {| key := Text "janet doe";
                      members := [janet_C 0] |} ]).
  { apply (groups_front (jane_A 0) (jane_B 0) (janet_C 0));
      [reflexivity|discriminate]. }
  set (two := {| key := Text "jane doe";
                 members := [jane_A 0; jane_B 0] |}) in *.
  set (one := {| key := Text "janet doe"; members := [janet_C 0] |}) in *.
  assert (S2 : score two = 0)
    by (apply score_of_zero_strengths; repeat constructor).
  assert (S1 : score one = 0)
    by (apply score_of_zero_strengths; repeat constructor).
  assert (Hb : beats one two = true).
  { unfold beats. rewrite S1, S2.
    destruct (Rlt_dec 0 0) as [H|_]; [lra|]. reflexivity. }
  eexists. split.
  - unfold correlate_field.
    change (filter _ [jane_A 0; jane_B 0; janet_C 0])
      with [jane_A 0; jane_B 0; janet_C 0].
    cbv beta iota. rewrite Hg. cbv beta iota zeta.
    unfold best. cbn [fold_left]. rewrite Hb. reflexivity.
  - cbn [value confidence]. split; [reflexivity|].
    assert (Hc : bounded (score one / total_score [two; one]) = 0).
    { rewrite S1. unfold Rdiv. rewrite Rmult_0_l.
      apply bounded_id. lra. }
    rewrite Hc. split; [reflexivity|].
    intros [_ H]. lra.
Qed.

End CorrelatorSpec.

(* ================================================================== *)
(** ** Further properties of the person-details router *)
(* ================================================================== *)

Module PersonDetailsMore.
Import JS Http PersonDetails Shapes.

Lemma toString_inj (a b : Z) : toString a = toString b -> a = b.
Proof.
  unfold toString. intros H.
  assert (Hnn : forall z, Z.to_int z <> Decimal.Pos Decimal.Nil
                          /\ Z.to_int z <> Decimal.Neg Decimal.Nil).
  { intros [|p|p]; simpl; split; try discriminate;
      intros [= E]; now apply DecimalPos.Unsigned.to_uint_nonnil in E. }
  apply DecimalZ.to_int_inj.
  assert (E : Some (Z.to_int a) = Some (Z.to_int b)).
  { rewrite <- (NilZero.isi (Z.to_int a)), <- (NilZero.isi (Z.to_int b));
      try apply Hnn.
    now rewrite H. }
  now injection E.
Qed.

Lemma strict_equals_from_query (a q : value) :
  from_query_string q = true ->
  truthy q = true ->
  strict_equals a q = true ->
  exists s, a = Str s /\ q = Str s.
Proof.
  destruct q; simpl; try discriminate; intros _ Ht H;
    destruct a; simpl in H; try discriminate.
  apply String.eqb_eq in H. subst. now eexists.
Qed.

(** What a search can answer, by cases on the query and the array. *)
Lemma search_cases (req : request) (w : world) :
  let q := get "faceId" (query req) in
  (truthy q = false
   /\ search req w
      = (json 400 (Obj [("error", Str "faceId is required")]), w))
  \/ (truthy q = true
      /\ find (fun p => strict_equals (get "faceId" p) q) (personDatabase w)
         = None
      /\ fst (search req w)
         = json 404
             (Obj [("error", Str "Person not found");
                   ("message",
                    Str "No matching person found for the given faceId")]))
  \/ (truthy q = true
      /\ exists p,
          find (fun p => strict_equals (get "faceId" p) q) (personDatabase w)
          = Some p
          /\ search req w
             = (json 200 (Obj [("status", Str "success"); ("person", Obj p)]),
                record DbFind w)).
Proof.
  cbv zeta. unfold search.
  destruct (truthy (get "faceId" (query req))) eqn:Ht; simpl; [|now left].
  right. unfold bind, db_find.
  destruct (find _ (personDatabase w)) as [p|] eqn:Hf.
  - right. split; [reflexivity|]. exists p. now split.
  - left. repeat split.
Qed.

(** X1: GET /search answers 400 exactly on a falsy faceId, 404 exactly
    when the faceId is truthy and no record is strictly equal to it on
    [faceId], and 200 exactly when some record is; a person it returns is
    a record of the array whose faceId is strictly equal to the query's. *)
Theorem search_answer_characterised :
  forall (req : request) (w : world),
    let q := get "faceId" (query req) in
    let r := fst (search req w) in
    (status r = 400 <-> truthy q = false)
    /\ (status r = 404 <->
        truthy q = true
        /\ forall p, In p (personDatabase w) ->
                     strict_equals (get "faceId" p) q = false)
    /\ (status r = 200 <->
        truthy q = true
        /\ exists p, In p (personDatabase w)
                     /\ strict_equals (get "faceId" p) q = true)
    /\ (forall p, returned_person r = Some p ->
                  status r = 200
                  /\ In p (personDatabase w)
                  /\ strict_equals (get "faceId" p) q = true).
Proof.
  intros req w. cbv zeta.
  destruct (search_cases req w)
    as [[Ht E]|[(Ht & Hf & E)|(Ht & p & Hf & E)]];
    rewrite E, Ht; simpl fst; cbn [status json].
  - split; [split; auto|].
    split; [split; [discriminate|intros [H _]; discriminate H]|].
    split; [split; [discriminate|intros [H _]; discriminate H]|].
    intros p H. discriminate H.
  - rewrite PersonDetailsSpec.find_none_iff in Hf.
    split; [split; discriminate|].
    split; [split; auto|].
    split.
    + split; [discriminate|].
      intros [_ (p & Hin & Hp)]. rewrite (Hf p Hin) in Hp. discriminate.
    + intros p H. discriminate H.
  - destruct (PersonDetailsSpec.find_some_first _ _ _ Hf)
      as (b & a & Hsplit & Hp & _).
    assert (Hin : In p (personDatabase w)).
    { rewrite Hsplit. apply in_or_app. right. now left. }
    split; [split; discriminate|].
    split.
    { split; [discriminate|].
      intros [_ Hall]. rewrite (Hall p Hin) in Hp. discriminate. }
    split.
    { split; [|reflexivity]. intros _. split; [reflexivity|]. now exists p. }
    intros p' [= <-]. now repeat split.
Qed.

(** A person returned to a query-string search has a string faceId, the
    one asked for. *)
Lemma search_returns_string_faceId (req : request) (w : world) (p : object) :
  from_query_string (get "faceId" (query req)) = true ->
  returned_person (fst (search req w)) = Some p ->
  exists s, get "faceId" p = Str s /\ get "faceId" (query req) = Str s.
Proof.
  intros Hq Hret.
  destruct (search_cases req w)
    as [[Ht E]|[(Ht & Hf & E)|(Ht & p' & Hf & E)]];
    rewrite E in Hret; simpl in Hret; try discriminate.
  injection Hret as <-.
  destruct (PersonDetailsSpec.find_some_first _ _ _ Hf) as (_ & _ & _ & Hp & _).
  now apply strict_equals_from_query.
Qed.

(** X2: POST / accepts any truthy faceId, also a number, a boolean, an
    array or an object; the record is stored with that value, and no
    search can ever return it, since a query string carries strings
    (or arrays and objects, which are never strictly equal to a stored
    value). *)
Theorem nonstring_faceId_stored_but_never_found :
  forall (req sreq : request) (w : world),
    truthy (get "name" (body req)) = true ->
    truthy (get "faceId" (body req)) = true ->
    (forall s, get "faceId" (body req) <> Str s) ->
    from_query_string (get "faceId" (query sreq)) = true ->
    let added := create req w in
    status (fst added) = 201
    /\ exists p,
         returned_person (fst added) = Some p
         /\ In p (personDatabase (snd added))
         /\ get "faceId" p = get "faceId" (body req)
         /\ returned_person (fst (search sreq (snd added))) <> Some p.
Proof.
  intros req sreq w Hn Hf Hns Hq. cbv zeta.
  destruct (PersonDetailsSpec.create_cases req w)
    as [[Hbad _]|(_ & _ & Hrun)].
  { rewrite Hn, Hf in Hbad. discriminate. }
  cbv zeta in Hrun. rewrite Hrun. simpl fst. simpl snd.
  split; [reflexivity|].
  eexists. split; [reflexivity|]. split.
  { simpl. apply in_or_app. right. now left. }
  split; [reflexivity|].
  intros Hret.
  destruct (search_returns_string_faceId _ _ _ Hq Hret) as (s & Hs & _).
  apply (Hns s). exact Hs.
Qed.

Lemma nonstring_faceId_stored_but_never_found_witness :
  status (fst (create (post [("name", Str "Ann"); ("faceId", Num 7%float)])
                 (initialWorld 0))) = 201.
Proof.
  apply (nonstring_faceId_stored_but_never_found
           (post [("name", Str "Ann"); ("faceId", Num 7%float)])
           (search_for "7") (initialWorld 0)).
  - reflexivity.
  - reflexivity.
  - intros s H. discriminate H.
  - reflexivity.
Defined.

Lemma nth_error_snoc {A} (l : list A) (x : A) (i : nat) (y : A) :
  nth_error (l ++ [x]) i = Some y ->
  (nth_error l i = Some y /\ (i < List.length l)%nat)
  \/ (i = List.length l /\ y = x).
Proof.
  intros H. destruct (Nat.lt_ge_cases i (List.length l)) as [Hlt|Hge].
  - left. rewrite nth_error_app1 in H by exact Hlt. now split.
  - right. rewrite nth_error_app2 in H by exact Hge.
    destruct (i - List.length l)%nat as [|k] eqn:E.
    + injection H as <-. split; [lia|reflexivity].
    + destruct k; discriminate H.
Qed.

(** Records are only ever appended, each with the next number as id. *)
Lemma reachable_ids_sequential (w : world) :
  reachable w -> ids_sequential (personDatabase w).
Proof.
  induction 1 as [now|w now _ IH|w r req _ IH].
  - intros [|[|[|i]]] p H; simpl in H; try discriminate H;
      injection H as <-; reflexivity.
  - exact IH.
  - destruct (PersonDetailsSpec.handle_database r req w)
      as [->|(_ & _ & _ & _ & ->)]; [exact IH|].
    intros i p H. apply nth_error_snoc in H.
    destruct H as [[H _]|[-> ->]]; [now apply IH|reflexivity].
Qed.

Lemma find_by_id_from (db : list object) :
  forall (k i : nat) (p : object),
    (forall j q, nth_error db j = Some q ->
                 get "id" q = Str (toString (Z.of_nat (k + j) + 1))) ->
    nth_error db i = Some p ->
    find (fun q => strict_equals (get "id" q)
                     (Str (toString (Z.of_nat (k + i) + 1)))) db
    = Some p.
Proof.
  induction db as [|a db IH]; intros k i p Hseq Hnth.
  - destruct i; discriminate Hnth.
  - simpl. rewrite (Hseq 0%nat a eq_refl). simpl.
    destruct i as [|i].
    + injection Hnth as <-. now rewrite String.eqb_refl.
    + destruct (String.eqb_spec (toString (Z.of_nat (k + 0) + 1))
                  (toString (Z.of_nat (k + S i) + 1))) as [E|_].
      { apply toString_inj in E. lia. }
      replace (k + S i)%nat with (S k + i)%nat by lia.
      apply IH; [|exact Hnth].
      intros j q Hj. replace (S k + j)%nat with (k + S j)%nat by lia.
      exact (Hseq (S j) q Hj).
Qed.

Lemma find_by_id (db : list object) (i : nat) (p : object) :
  ids_sequential db ->
  nth_error db i = Some p ->
  find (fun q => strict_equals (get "id" q)
                   (Str (toString (Z.of_nat i + 1)))) db
  = Some p.
Proof.
  intros Hseq Hnth. apply (find_by_id_from db 0 i p); [|exact Hnth].
  intros j q Hj. now apply Hseq.
Qed.

Lemma getById_at (w : world) (i : nat) (p : object) :
  ids_sequential (personDatabase w) ->
  nth_error (personDatabase w) i = Some p ->
  getById (lookup_id (toString (Z.of_nat i + 1))) w
  = (json 200 (Obj [("status", Str "success"); ("person", Obj p)]),
     record DbFind w).
Proof.
  intros Hseq Hnth. unfold getById, bind, db_find.
  change (param "personId" (lookup_id (toString (Z.of_nat i + 1))))
    with (Str (toString (Z.of_nat i + 1))).
  now rewrite (find_by_id _ i p Hseq Hnth).
Qed.

(** X3: in every state the server can reach, the record at position [i]
    of the array carries the decimal of [i + 1] as its id, and
    GET /:personId with that id returns exactly this record: ids are
    never reused and every stored record can be fetched by its id. *)
Theorem stored_record_fetched_by_id :
  forall (w : world) (i : nat) (p : object),
    reachable w ->
    nth_error (personDatabase w) i = Some p ->
    get "id" p = Str (toString (Z.of_nat i + 1))
    /\ getById (lookup_id (toString (Z.of_nat i + 1))) w
       = (json 200 (Obj [("status", Str "success"); ("person", Obj p)]),
          record DbFind w).
Proof.
  intros w i p Hreach Hnth.
  pose proof (reachable_ids_sequential w Hreach) as Hseq.
  split; [now apply Hseq|now apply getById_at].
Qed.

Lemma stored_record_fetched_by_id_witness :
  fst (getById (lookup_id "2") (initialWorld 0))
  = json 200 (Obj [("status", Str "success");
                   ("person", Obj (nth 1 initialDatabase []))]).
Proof.
  destruct (stored_record_fetched_by_id (initialWorld 0) 1
              (nth 1 initialDatabase []) (reach_init 0) eq_refl)
    as [_ H].
  exact (f_equal fst H).
Defined.

(** X4: create, then read.  After a POST answered 201 in a reachable
    state, the returned record carries the decimal of the new array
    length as its id, GET /:personId with that id returns the very record
    the POST returned, and GET / lists the old records followed by it,
    with [count] one more than before. *)
Theorem created_person_read_back :
  forall (req any : request) (w : world),
    reachable w ->
    truthy (get "name" (body req)) = true ->
    truthy (get "faceId" (body req)) = true ->
    let added := create req w in
    let n := List.length (personDatabase w) in
    exists p,
      returned_person (fst added) = Some p
      /\ get "id" p = Str (toString (Z.of_nat n + 1))
      /\ get "name" p = get "name" (body req)
      /\ get "faceId" p = get "faceId" (body req)
      /\ fst (getById (lookup_id (toString (Z.of_nat n + 1))) (snd added))
         = json 200 (Obj [("status", Str "success"); ("person", Obj p)])
      /\ fst (list_all any (snd added))
         = json 200 (Obj [("status", Str "success");
                          ("count", of_nat (S n));
                          ("persons",
                           Arr (map Obj (personDatabase w) ++ [Obj p]))]).
Proof.
  intros req any w Hreach Hn Hf. cbv zeta.
  assert (Hreach' : reachable (snd (create req w))).
  { exact (reach_step w POST_root req Hreach). }
  destruct (PersonDetailsSpec.create_cases req w)
    as [[Hbad _]|(_ & _ & Hrun)].
  { rewrite Hn, Hf in Hbad. discriminate. }
  cbv zeta in Hrun. rewrite Hrun in *. simpl fst. simpl snd in *.
  set (p := newPerson (List.length (personDatabase w)) (body req)) in *.
  exists p. split; [reflexivity|]. split; [reflexivity|].
  split; [reflexivity|]. split; [reflexivity|]. split.
  - rewrite (getById_at _ (List.length (personDatabase w)) p).
    + reflexivity.
    + now apply reachable_ids_sequential.
    + simpl. rewrite nth_error_app2 by lia.
      now rewrite Nat.sub_diag.
  - unfold list_all, bind, db_length, db_read. simpl.
    rewrite length_app, map_app. simpl.
    now rewrite Nat.add_1_r.
Qed.

Lemma created_person_read_back_witness :
  exists p,
    returned_person
      (fst (create (post [("name", Str "Ann"); ("faceId", Str "face-003")])
              (initialWorld 0))) = Some p
    /\ get "id" p = Str "3".
Proof.
  destruct (created_person_read_back
              (post [("name", Str "Ann"); ("faceId", Str "face-003")])
              empty_request (initialWorld 0) (reach_init 0)
              eq_refl eq_refl) as (p & Hret & Hid & _).
  exists p. split; [exact Hret|exact Hid].
Defined.

Lemma find_app_none {A} (p : A -> bool) (l l' : list A) :
  find p l = None -> find p (l ++ l') = find p l'.
Proof.
  induction l as [|a l IH]; simpl; [reflexivity|].
  destruct (p a); [discriminate|exact IH].
Qed.

(** X5: a POST with a string faceId that no stored record carries is
    found again: the search for that faceId on the resulting state
    returns the record the POST returned. *)
Theorem fresh_faceId_found_after_create :
  forall (req : request) (w : world) (f : string),
    truthy (get "name" (body req)) = true ->
    get "faceId" (body req) = Str f ->
    f <> "" ->
    (forall q, In q (personDatabase w) -> get "faceId" q <> Str f) ->
    let added := create req w in
    exists p,
      returned_person (fst added) = Some p
      /\ fst (search (search_for f) (snd added))
         = json 200 (Obj [("status", Str "success"); ("person", Obj p)]).
Proof.
  intros req w f Hn Hf Hne Hfresh. cbv zeta.
  assert (Ht : truthy (Str f) = true).
  { simpl. destruct (String.eqb_spec f ""); [contradiction|reflexivity]. }
  destruct (PersonDetailsSpec.create_cases req w)
    as [[Hbad _]|(_ & _ & Hrun)].
  { rewrite Hn, Hf, Ht in Hbad. discriminate. }
  cbv zeta in Hrun. rewrite Hrun. simpl fst. simpl snd.
  eexists. split; [reflexivity|].
  unfold search, search_for. cbn [query].
  change (get "faceId" [("faceId", Str f)]) with (Str f).
  rewrite Ht. unfold bind, db_find.
  cbv beta iota delta [negb]. cbn [personDatabase].
  assert (Hnone : find (fun p => strict_equals (get "faceId" p) (Str f))
                    (personDatabase w) = None).
  { apply PersonDetailsSpec.find_none_iff. intros q Hq.
    destruct (strict_equals (get "faceId" q) (Str f)) eqn:E; [|reflexivity].
    apply PersonDetailsSpec.strict_equals_Str in E.
    now elim (Hfresh q Hq). }
  rewrite (find_app_none _ _ _ Hnone). cbn [find].
  change (get "faceId" (newPerson _ (body req)))
    with (get "faceId" (body req)).
  rewrite Hf. simpl. now rewrite String.eqb_refl.
Qed.

Lemma fresh_faceId_found_after_create_witness :
  exists p,
    fst (search (search_for "face-003")
           (snd (create (post [("name", Str "Ann");
                               ("faceId", Str "face-003")])
                   (initialWorld 0))))
    = json 200 (Obj [("status", Str "success"); ("person", Obj p)]).
Proof.
  destruct (fresh_faceId_found_after_create
              (post [("name", Str "Ann"); ("faceId", Str "face-003")])
              (initialWorld 0) "face-003" eq_refl eq_refl)
    as (p & _ & H).
  - discriminate.
  - intros q [<-|[<-|[]]]; discriminate.
  - exists p. exact H.
Defined.

(** X22: GET /:personId answers 200 exactly when some record's id is
    strictly equal to the route parameter, and 404 otherwise, never 400;
    a person it returns is a record of the array with that id; the array
    is searched once and left as it was. *)
Theorem getById_answer_characterised :
  forall (req : request) (w : world),
    let id := param "personId" req in
    let r := fst (getById req w) in
    (status r = 200 <->
     exists p, In p (personDatabase w)
               /\ strict_equals (get "id" p) id = true)
    /\ (status r = 404 <->
        forall p, In p (personDatabase w) ->
                  strict_equals (get "id" p) id = false)
    /\ (forall p, returned_person r = Some p ->
                  In p (personDatabase w)
                  /\ strict_equals (get "id" p) id = true)
    /\ snd (getById req w) = record DbFind w.
Proof.
  intros req w. cbv zeta. unfold getById, bind, db_find.
  destruct (find _ (personDatabase w)) as [p|] eqn:Hf; cbn [fst snd status json].
  - destruct (PersonDetailsSpec.find_some_first _ _ _ Hf)
      as (b & a & Hsplit & Hp & _).
    assert (Hin : In p (personDatabase w)).
    { rewrite Hsplit. apply in_or_app. right. now left. }
    split; [split; [intros _; now exists p|reflexivity]|].
    split.
    { split; [discriminate|].
      intros Hall. rewrite (Hall p Hin) in Hp. discriminate. }
    split; [|reflexivity].
    intros p' [= <-]. now split.
  - rewrite PersonDetailsSpec.find_none_iff in Hf.
    split.
    { split; [discriminate|].
      intros (p & Hin & Hp). rewrite (Hf p Hin) in Hp. discriminate. }
    split; [split; auto|].
    split; [|reflexivity].
    intros p H. discriminate H.
Qed.

(** X23: every record the server ever holds has the same eight
    properties in the same order, whatever the POST bodies were:
    properties a body leaves out are filled in, and properties it adds
    are dropped. *)
Theorem stored_records_have_one_shape :
  forall w : world,
    reachable w ->
    Forall (fun p => map fst p = person_keys) (personDatabase w).
Proof.
  induction 1 as [now|w now _ IH|w r req _ IH].
  - repeat constructor.
  - exact IH.
  - destruct (PersonDetailsSpec.handle_database r req w)
      as [->|(_ & _ & _ & _ & ->)]; [exact IH|].
    apply Forall_app. split; [exact IH|]. now repeat constructor.
Qed.

Lemma stored_records_have_one_shape_witness :
  Forall (fun p => map fst p = person_keys)
    (personDatabase
       (snd (create (post [("name", Str "Ann"); ("faceId", Str "face-003");
                           ("nickname", Str "annie")])
               (initialWorld 0)))).
Proof.
  apply (stored_records_have_one_shape
           (snd (create (post [("name", Str "Ann");
                               ("faceId", Str "face-003");
                               ("nickname", Str "annie")])
                   (initialWorld 0)))).
  apply (reach_step (initialWorld 0) POST_root). apply reach_init.
Defined.

End PersonDetailsMore.

(* ================================================================== *)
(** ** Further properties of the facial-recognition, livestream and
       health routes *)
(* ================================================================== *)

Module StatelessRoutes.
Import JS Http.

Lemma append_inv_tail (a b t : string) :
  (a ++ t)%string = (b ++ t)%string -> a = b.
Proof.
  intros H.
  assert (L : forall x y, list_ascii_of_string (x ++ y)%string
                          = (list_ascii_of_string x
                             ++ list_ascii_of_string y)%list).
  { induction x as [|c x IH]; intros y; simpl; [reflexivity|].
    now rewrite IH. }
  apply (f_equal list_ascii_of_string) in H. rewrite !L in H.
  apply app_inv_tail in H.
  rewrite <- (string_of_list_ascii_of_string a),
          <- (string_of_list_ascii_of_string b).
  now rewrite H.
Qed.

(** X6: the facial-recognition and livestream handlers and the health
    check keep no state.  Each leaves [personDatabase] as it was, makes no
    database access (at most the clock is read, once), and its answer is
    the same in any two server states that agree on the clock. *)
Theorem placeholder_routes_are_stateless :
  forall (toISOString : Z -> string) (req : request) (id : string)
         (h : M response),
    In h [ FacialRecognition.process req;
           FacialRecognition.analyze_frame toISOString req;
           FacialRecognition.results toISOString id;
           Livestream.capture req;
           Livestream.capture_status toISOString id;
           Server.health toISOString ] ->
    forall w : world,
      personDatabase (snd (h w)) = personDatabase w
      /\ (log (snd (h w)) = log w
          \/ log (snd (h w)) = (log w ++ [ClockRead])%list)
      /\ forall w' : world, clock w' = clock w -> fst (h w') = fst (h w).
Proof.
  intros iso req id h Hin w.
  simpl in Hin.
  destruct Hin as [<-|[<-|[<-|[<-|[<-|[<-|[]]]]]]].
  - unfold FacialRecognition.process.
    destruct (file req); simpl; (split; [reflexivity|]);
      (split; [auto|]); intros w' E; now rewrite ?E.
  - unfold FacialRecognition.analyze_frame.
    destruct (truthy (get "imageData" (body req))); simpl;
      (split; [reflexivity|]); (split; [auto|]);
      intros w' E; now rewrite ?E.
  - simpl. split; [reflexivity|]. split; [auto|].
    intros w' E. now rewrite E.
  - unfold Livestream.capture.
    destruct (truthy (get "livestreamUrl" (body req))); simpl;
      (split; [reflexivity|]); (split; [auto|]);
      intros w' E; now rewrite ?E.
  - simpl. split; [reflexivity|]. split; [auto|].
    intros w' E. now rewrite E.
  - simpl. split; [reflexivity|]. split; [auto|].
    intros w' E. now rewrite E.
Qed.

Lemma placeholder_routes_are_stateless_witness :
  personDatabase
    (snd (Livestream.capture
            (FacialRecognition.with_body
               [("livestreamUrl", Str "https://www.instagram.com/live/x")])
            (PersonDetails.initialWorld 5)))
  = PersonDetails.initialDatabase.
Proof.
  assert (Hin : In (Livestream.capture
                      (FacialRecognition.with_body
                         [("livestreamUrl",
                           Str "https://www.instagram.com/live/x")]))
                  [ FacialRecognition.process
                      (FacialRecognition.with_body
                         [("livestreamUrl",
                           Str "https://www.instagram.com/live/x")]);
                    FacialRecognition.analyze_frame (fun _ => "")
                      (FacialRecognition.with_body
                         [("livestreamUrl",
                           Str "https://www.instagram.com/live/x")]);
                    FacialRecognition.results (fun _ => "") "";
                    Livestream.capture
                      (FacialRecognition.with_body
                         [("livestreamUrl",
                           Str "https://www.instagram.com/live/x")]);
                    Livestream.capture_status (fun _ => "") "";
                    Server.health (fun _ => "") ]).
  { simpl. auto 6. }
  destruct (placeholder_routes_are_stateless (fun _ => "") _ "" _ Hin
              (PersonDetails.initialWorld 5)) as [Hdb _].
  exact Hdb.
Defined.

(** X7: the disk storage names an upload by the clock and the extension
    of the original name alone.  Two uploads whose original names have
    the same extension get the same stored name exactly when they are
    named in the same millisecond: the rest of the original name never
    tells them apart. *)
Theorem stored_names_collide_in_same_millisecond :
  forall (extname : string -> string) (o1 o2 : string) (t1 t2 : Z),
    extname o1 = extname o2 ->
    (FacialRecognition.storage_filename extname t1 o1
     = FacialRecognition.storage_filename extname t2 o2
     <-> t1 = t2).
Proof.
  intros extname o1 o2 t1 t2 Hext.
  unfold FacialRecognition.storage_filename. rewrite Hext. split.
  - intros H. apply append_inv_tail in H.
    now apply PersonDetailsMore.toString_inj.
  - now intros ->.
Qed.

Lemma stored_names_collide_in_same_millisecond_witness :
  FacialRecognition.storage_filename (fun _ => ".mp4") 1700000000000 "a.mp4"
  = FacialRecognition.storage_filename (fun _ => ".mp4") 1700000000000 "b.mp4".
Proof.
  apply (stored_names_collide_in_same_millisecond
           (fun _ => ".mp4") "a.mp4" "b.mp4"); reflexivity.
Defined.



End StatelessRoutes.

(* ================================================================== *)
(** ** Properties of the page script *)
(* ================================================================== *)

Module ScriptSpec.
Import JS Http Script Shapes.

(** *** Trimming and splitting *)

Lemma trim_start_clean (s : list ascii) : starts_clean (trim_start s).
Proof.
  induction s as [|c s IH]; simpl; [exact I|].
  destruct (is_white_space c) eqn:E; [exact IH|exact E].
Qed.

Lemma trim_start_fixed (s : list ascii) :
  starts_clean s -> trim_start s = s.
Proof.
  destruct s as [|c s]; simpl; [reflexivity|]. now intros ->.
Qed.

Lemma trim_start_suffix (s : list ascii) :
  exists p, s = (p ++ trim_start s)%list.
Proof.
  induction s as [|c s [p IH]]; simpl.
  - now exists [].
  - destruct (is_white_space c).
    + exists (c :: p). simpl. now f_equal.
    + now exists [].
Qed.

Lemma trim_chars_fixed (s : list ascii) :
  starts_clean s -> starts_clean (rev s) -> trim_chars s = s.
Proof.
  intros H1 H2. unfold trim_chars.
  now rewrite (trim_start_fixed s H1), (trim_start_fixed _ H2), rev_involutive.
Qed.

Lemma trim_chars_clean (s : list ascii) :
  starts_clean (trim_chars s) /\ starts_clean (rev (trim_chars s)).
Proof.
  unfold trim_chars. rewrite rev_involutive.
  split; [|apply trim_start_clean].
  set (y := trim_start s).
  assert (Hy : starts_clean y) by apply trim_start_clean.
  destruct (trim_start_suffix (rev y)) as [p Hp].
  set (t := trim_start (rev y)) in *.
  assert (E : y = (rev t ++ rev p)%list).
  { rewrite <- rev_app_distr, <- Hp. now rewrite rev_involutive. }
  destruct (rev t) as [|c z] eqn:Et; [exact I|].
  rewrite E in Hy. exact Hy.
Qed.

Lemma trim_chars_idempotent (s : list ascii) :
  trim_chars (trim_chars s) = trim_chars s.
Proof.
  destruct (trim_chars_clean s) as [H1 H2]. now apply trim_chars_fixed.
Qed.

Lemma trim_start_incl (s : list ascii) (c : ascii) :
  In c (trim_start s) -> In c s.
Proof.
  destruct (trim_start_suffix s) as [p Hp]. intros H.
  rewrite Hp. apply in_or_app. now right.
Qed.

Lemma trim_chars_incl (s : list ascii) (c : ascii) :
  In c (trim_chars s) -> In c s.
Proof.
  unfold trim_chars. intros H.
  apply in_rev, trim_start_incl, in_rev in H.
  now apply trim_start_incl.
Qed.

Lemma split_chars_nonempty (sep : ascii) (s : list ascii) :
  split_chars sep s <> [].
Proof.
  destruct s as [|c s]; simpl; [discriminate|].
  destruct (Ascii.eqb c sep); [discriminate|].
  destruct (split_chars sep s); discriminate.
Qed.

Lemma split_chars_no_sep (sep : ascii) (s piece : list ascii) :
  In piece (split_chars sep s) -> ~ In sep piece.
Proof.
  revert piece. induction s as [|c s IH]; simpl; intros piece H.
  - destruct H as [<-|[]]. intros [].
  - destruct (Ascii.eqb_spec c sep) as [->|Hne].
    + destruct H as [<-|H]; [intros []|now apply IH].
    + destruct (split_chars sep s) as [|w ws] eqn:E.
      * destruct H as [<-|[]]. intros [Hc|[]]. now elim Hne.
      * destruct H as [<-|H].
        -- intros [Hc|Hin]; [now elim Hne|].
           apply (IH w); [now left|exact Hin].
        -- apply IH. now right.
Qed.

Lemma split_chars_whole (sep : ascii) (s : list ascii) :
  ~ In sep s -> split_chars sep s = [s].
Proof.
  induction s as [|c s IH]; simpl; [reflexivity|]. intros H.
  destruct (Ascii.eqb_spec c sep) as [->|_].
  - elim H. now left.
  - rewrite IH; [reflexivity|]. intros Hin. apply H. now right.
Qed.

Lemma split_chars_cons (sep : ascii) (a rest : list ascii) :
  ~ In sep a ->
  split_chars sep (a ++ sep :: rest)%list = a :: split_chars sep rest.
Proof.
  induction a as [|c a IH]; simpl; intros H.
  - now rewrite Ascii.eqb_refl.
  - destruct (Ascii.eqb_spec c sep) as [->|_].
    + elim H. now left.
    + rewrite IH; [reflexivity|]. intros Hin. apply H. now right.
Qed.

Lemma chars_of_append (a b : string) :
  list_ascii_of_string (a ++ b)%string
  = (list_ascii_of_string a ++ list_ascii_of_string b)%list.
Proof.
  induction a as [|c a IH]; simpl; [reflexivity|]. now rewrite IH.
Qed.

Lemma length_chars (s : string) :
  String.length s = List.length (list_ascii_of_string s).
Proof. induction s as [|c s IH]; simpl; [reflexivity|]. now rewrite IH. Qed.

(** X9: every entry the form sends as an interest is non-empty, holds no
    comma and has no white space at either end. *)
Theorem parsed_interests_are_tidy :
  forall (raw i : string), In i (parseInterests raw) -> tidy i.
Proof.
  intros raw i H. unfold parseInterests in H.
  apply filter_In in H. destruct H as [Hin Hlen].
  apply in_map_iff in Hin. destruct Hin as (piece & <- & Hpiece).
  unfold split in Hpiece. apply in_map_iff in Hpiece.
  destruct Hpiece as (chars & <- & Hchars).
  apply split_chars_no_sep in Hchars.
  unfold tidy, trim in *.
  rewrite !list_ascii_of_string_of_list_ascii in *.
  split; [|split].
  - intros E. rewrite E in Hlen. discriminate Hlen.
  - intros Hc. apply Hchars. now apply trim_chars_incl in Hc.
  - now rewrite trim_chars_idempotent.
Qed.

Lemma parsed_interests_are_tidy_witness : tidy "art".
Proof.
  apply (parsed_interests_are_tidy " music,  art ,,travel , " "art").
  vm_compute. right. left. reflexivity.
Defined.

Lemma split_concat (x : string) (l : list string) :
  Forall (fun i => ~ In ","%char (list_ascii_of_string i)) (x :: l) ->
  split ","%char (String.concat "," (x :: l)) = x :: l.
Proof.
  revert x. induction l as [|y l IH]; intros x H; unfold split.
  - simpl. inversion H as [|? ? Hx _]; subst.
    rewrite (split_chars_whole _ _ Hx). simpl.
    now rewrite string_of_list_ascii_of_string.
  - inversion H as [|? ? Hx Hrest]; subst.
    change (String.concat "," (x :: y :: l))
      with (x ++ "," ++ String.concat "," (y :: l))%string.
    rewrite chars_of_append. simpl list_ascii_of_string.
    rewrite (split_chars_cons _ _ _ Hx). simpl map.
    rewrite string_of_list_ascii_of_string. f_equal.
    exact (IH y Hrest).
Qed.

(** X10: typing tidy interests separated by commas and reading them
    back gives the same list: [parseInterests] undoes the joining. *)
Theorem parseInterests_of_joined :
  forall l : list string,
    Forall tidy l -> parseInterests (String.concat "," l) = l.
Proof.
  intros [|x l] H; [reflexivity|].
  unfold parseInterests. rewrite split_concat.
  - assert (Hmap : map trim (x :: l) = x :: l).
    { clear -H. induction H as [|i r (_ & _ & Hi) _ IH]; simpl;
        [reflexivity|]. now rewrite Hi, IH. }
    rewrite Hmap. clear Hmap.
    induction H as [|i r (Hi & _ & _) _ IH]; simpl; [reflexivity|].
    destruct i as [|c i]; [now elim Hi|]. simpl. now rewrite IH.
  - eapply Forall_impl; [|exact H]. intros i (_ & Hi & _). exact Hi.
Qed.

Lemma parseInterests_of_joined_witness :
  parseInterests (String.concat "," ["music"; "modern art"])
  = ["music"; "modern art"].
Proof.
  apply (parseInterests_of_joined ["music"; "modern art"]).
  repeat constructor; try discriminate;
    intros H; vm_compute in H; intuition discriminate.
Defined.

(** *** The forms against the server *)

Lemma truthy_Str (s : string) : truthy (Str s) = negb (String.eqb s "").
Proof. reflexivity. Qed.

Lemma nonblank (s : string) : s <> "" -> String.eqb s "" = false.
Proof. intros H. now apply String.eqb_neq. Qed.

Lemma or_else_blank (s : string) (d : value) :
  or_else (Str s) d = if String.eqb s "" then d else Str s.
Proof. unfold or_else. rewrite truthy_Str. now destruct (String.eqb s ""). Qed.

Lemma form_record_built (n : nat) (form : person_form) :
  PersonDetails.newPerson n (personData form) = form_record n form.
Proof.
  unfold PersonDetails.newPerson, form_record.
  change (get "faceId" (personData form)) with (Str (personFaceId form)).
  change (get "name" (personData form)) with (Str (personName form)).
  change (get "birthday" (personData form))
    with (Str (personBirthday form)).
  change (get "occupation" (personData form))
    with (Str (personOccupation form)).
  change (get "location" (personData form))
    with (Str (personLocation form)).
  change (get "interests" (personData form))
    with (Arr (map Str (parseInterests (personInterests form)))).
  change (get "socialMedia" (personData form)) with Undefined.
  rewrite !or_else_blank. reflexivity.
Qed.

Lemma form_accepted (form : person_form) (w : world) :
  personName form <> "" ->
  personFaceId form <> "" ->
  PersonDetails.create (PersonDetails.post (personData form)) w
  = (json 201
       (Obj [("status", Str "success");
             ("message", Str "Person added successfully");
             ("person",
              Obj (form_record (List.length (personDatabase w)) form))]),
     {| personDatabase :=
          (personDatabase w
           ++ [form_record (List.length (personDatabase w)) form])%list;
        clock := clock w;
        log := ((log w ++ [DbLength]) ++ [DbPush])%list |}).
Proof.
  intros Hn Hf.
  destruct (PersonDetailsSpec.create_cases
              (PersonDetails.post (personData form)) w)
    as [[Hbad _]|(_ & _ & Hrun)].
  - change (truthy (Str (personName form))
            && truthy (Str (personFaceId form)) = false) in Hbad.
    rewrite !truthy_Str, (nonblank _ Hn), (nonblank _ Hf) in Hbad.
    discriminate Hbad.
  - cbv zeta in Hrun. rewrite Hrun.
    change (body (PersonDetails.post (personData form)))
      with (personData form).
    now rewrite form_record_built.
Qed.

Lemma form_rejected (form : person_form) (w : world) :
  personName form = "" \/ personFaceId form = "" ->
  PersonDetails.create (PersonDetails.post (personData form)) w
  = (json 400 (Obj [("error", Str "Name and faceId are required")]), w).
Proof.
  intros H.
  destruct (PersonDetailsSpec.create_cases
              (PersonDetails.post (personData form)) w)
    as [[_ E]|(Hn & Hf & _)]; [exact E|].
  change (truthy (Str (personName form)) = true) in Hn.
  change (truthy (Str (personFaceId form)) = true) in Hf.
  rewrite truthy_Str in Hn, Hf.
  destruct H as [E|E]; rewrite E in *; discriminate.
Qed.

(** X11: a form with a name and a faceId, once delivered, adds exactly
    one record: name and faceId as typed, a blank birthday, occupation
    or location stored as [null], the interests as parsed, no social
    media; the page then reports success by name, resets the form and
    schedules a reload of the list. *)
Theorem submitted_form_is_stored :
  forall (number_to_string : float -> string)
         (engine_message : cause -> string)
         (form : person_form) (w : world),
    personName form <> "" ->
    personFaceId form <> "" ->
    let out := addPerson number_to_string engine_message None form w in
    personDatabase (snd out)
    = (personDatabase w
       ++ [form_record (List.length (personDatabase w)) form])%list
    /\ status_after "addPersonStatus" (fst out)
       = Some (("Success! " ++ personName form
                ++ " has been added to the database.")%string,
               "status-message success")
    /\ In (FormReset "addPersonForm") (fst out)
    /\ In (SetTimeout "loadPersonDatabase" 1000) (fst out).
Proof.
  intros nts emsg form w Hn Hf. cbv zeta.
  unfold addPerson, fetch.
  change {| query := []; params := []; body := personData form;
            file := None |}
    with (PersonDetails.post (personData form)).
  rewrite (form_accepted form w Hn Hf).
  split; [reflexivity|]. split; [reflexivity|].
  split; simpl; auto 6.
Qed.

Lemma submitted_form_is_stored_witness :
  In (FormReset "addPersonForm")
    (fst (addPerson (fun _ => "") (fun _ => "") None
            {| personName := "Ann"; personBirthday := "";
               personFaceId := "face-003"; personOccupation := "";
               personLocation := "Oslo"; personInterests := "art, chess" |}
            (PersonDetails.initialWorld 0))).
Proof.
  assert (Hn : "Ann" <> "") by discriminate.
  assert (Hf : "face-003" <> "") by discriminate.
  destruct (submitted_form_is_stored (fun _ => "") (fun _ => "")
              {| personName := "Ann"; personBirthday := "";
                 personFaceId := "face-003"; personOccupation := "";
                 personLocation := "Oslo"; personInterests := "art, chess" |}
              (PersonDetails.initialWorld 0) Hn Hf) as (_ & _ & H & _).
  exact H.
Defined.

(** X12: the script does not check the form itself.  With a blank name
    or a blank faceId the request is still sent, the server answers 400,
    nothing is stored, and the page shows the server's error text; the
    form is not reset and no reload is scheduled. *)
Theorem blank_form_is_rejected_by_server :
  forall (number_to_string : float -> string)
         (engine_message : cause -> string)
         (form : person_form) (w : world),
    personName form = "" \/ personFaceId form = "" ->
    addPerson number_to_string engine_message None form w
    = ([ PreventDefault;
         Status "addPersonStatus" "Adding person..." "status-message info";
         Status "addPersonStatus" "Error: Name and faceId are required"
           "status-message error" ],
       w).
Proof.
  intros nts emsg form w H.
  unfold addPerson, fetch.
  change {| query := []; params := []; body := personData form;
            file := None |}
    with (PersonDetails.post (personData form)).
  now rewrite (form_rejected form w H).
Qed.

Lemma blank_form_is_rejected_by_server_witness :
  snd (addPerson (fun _ => "") (fun _ => "") None
         {| personName := ""; personBirthday := "";
            personFaceId := "face-003"; personOccupation := "";
            personLocation := ""; personInterests := "" |}
         (PersonDetails.initialWorld 0))
  = PersonDetails.initialWorld 0.
Proof.
  rewrite (blank_form_is_rejected_by_server (fun _ => "") (fun _ => "")
             {| personName := ""; personBirthday := "";
                personFaceId := "face-003"; personOccupation := "";
                personLocation := ""; personInterests := "" |}
             (PersonDetails.initialWorld 0));
    [reflexivity|left; reflexivity].
Defined.

(** X13: the livestream form.  A blank URL is refused on the page and
    no request is sent; any other URL, once delivered, is always
    answered with success, the capture id being the server's clock; a
    request that is not delivered shows the failure's message.  The
    server's own 400 answer is never shown by this page. *)
Theorem livestream_form_outcomes :
  forall (number_to_string : float -> string)
         (engine_message : cause -> string)
         (failure : option string) (c : ascii) (s m : string) (w : world),
    captureLivestream number_to_string engine_message failure "" w
    = ([Status "livestreamStatus" "Please enter a livestream URL"
          "status-message error"], w)
    /\ (let out := captureLivestream number_to_string engine_message None
                     (String c s) w in
        status_after "livestreamStatus" (fst out)
        = Some (("Success! Capture ID: " ++ toString (clock w)
                 ++ ". Configure Instagram API credentials in .env file for actual implementation")%string,
                "status-message success")
        /\ personDatabase (snd out) = personDatabase w)
    /\ captureLivestream number_to_string engine_message (Some m)
         (String c s) w
       = ([ Status "livestreamStatus" "Capturing livestream..."
              "status-message info";
            Status "livestreamStatus" ("Error: " ++ m)
              "status-message error" ], w).
Proof.
  intros nts emsg failure c s m w. repeat split.
Qed.

(** X14: the upload form.  With no file selected nothing is sent.  With
    files selected only the first is sent; once delivered the page always
    reports success with the server's clock as process id, whatever the
    file, and fills the faces container with the two demo faces. *)
Theorem upload_form_outcomes :
  forall (number_to_string toFixed1 : float -> string)
         (engine_message : cause -> string)
         (extname : string -> string) (join : string -> string -> string)
         (multer_message : string -> string)
         (failure : option string) (first : string) (rest : list string)
         (dt : Z) (w : world),
    uploadVideo number_to_string toFixed1 engine_message extname join
      multer_message failure [] dt w
    = ([Status "uploadStatus" "Please select a video file"
          "status-message error"], w)
    /\ (let out := uploadVideo number_to_string toFixed1 engine_message
                     extname join multer_message None (first :: rest)
                     dt w in
        out = uploadVideo number_to_string toFixed1 engine_message
                extname join multer_message None [first] dt w
        /\ status_after "uploadStatus" (fst out)
           = Some (("Success! Process ID: " ++ toString (clock w + dt)
                    ++ ". Video uploaded successfully. Configure facial recognition API in .env for actual processing.")%string,
                   "status-message success")
        /\ content_after "facesContainer" (fst out)
           = map (fun face =>
                    Child "face-card"
                      (face_html number_to_string toFixed1 face))
               mockFaces
        /\ personDatabase (snd out) = personDatabase w).
Proof.
  intros nts fix1 emsg extname join message failure first rest dt w.
  repeat split.
Qed.

(** *** Person cards *)

Section Cards.
Variable number_to_string : float -> string.
Variable string_to_number : string -> float.
Variable engine_message : cause -> string.

Let make_card := createPersonCard number_to_string string_to_number.
Let render := to_string number_to_string.

Lemma each_tag_strings (l : list string) :
  each_tag number_to_string (map Str l) = Ok (map interest_tag l).
Proof.
  induction l as [|i l IH]; simpl; [reflexivity|]. now rewrite IH.
Qed.

Lemma blank_field_shown (s : string) :
  render (or_else (blank_as_null s) (Str "Not specified")) = Ok (shown s).
Proof.
  unfold blank_as_null, shown, or_else.
  destruct (String.eqb s "") eqn:E; simpl; [reflexivity|].
  now rewrite E.
Qed.

(** X15: every record the server builds from the page's form renders,
    never throwing: name and faceId as typed, a blank birthday,
    occupation or location as "Not specified", no interests as
    "No interests listed" and otherwise one tag per parsed interest, and
    no social-media row. *)
Theorem form_record_renders :
  forall (n : nat) (form : person_form),
    make_card (Obj (form_record n form))
    = Ok {| className := "person-card";
            innerHTML :=
              card_html (personName form) (personFaceId form)
                (shown (personBirthday form))
                (shown (personOccupation form))
                (shown (personLocation form))
                (match parseInterests (personInterests form) with
                 | [] => no_interests
                 | l => interests_tags
                          (String.concat "" (map interest_tag l))
                 end)
                "" |}.
Proof.
  intros n form. unfold make_card, createPersonCard.
  change (read (Obj (form_record n form)) "interests")
    with (@Ok value
            (Arr (map Str (parseInterests (personInterests form))))).
  change (read (Obj (form_record n form)) "name")
    with (@Ok value (Str (personName form))).
  change (read (Obj (form_record n form)) "faceId")
    with (@Ok value (Str (personFaceId form))).
  change (read (Obj (form_record n form)) "birthday")
    with (@Ok value (blank_as_null (personBirthday form))).
  change (read (Obj (form_record n form)) "occupation")
    with (@Ok value (blank_as_null (personOccupation form))).
  change (read (Obj (form_record n form)) "location")
    with (@Ok value (blank_as_null (personLocation form))).
  change (read (Obj (form_record n form)) "socialMedia")
    with (@Ok value (Obj [])).
  cbn [and_then]. 
  fold render. rewrite !blank_field_shown. cbn [and_then].
  destruct (parseInterests (personInterests form)) as [|i l] eqn:E.
  - reflexivity.
  - cbn [truthy has_positive_length and_then].
    rewrite length_map. cbn [List.length Nat.eqb negb].
    rewrite each_tag_strings. reflexivity.
Qed.

(** Such a record holds strings, [null], a list of strings and an empty
    object only, so the page receives it as it is stored. *)
Lemma form_record_received (n : nat) (form : person_form) :
  Json.wire (Obj (form_record n form)) = Obj (form_record n form).
Proof.
  unfold form_record, blank_as_null. cbn [Json.wire Json.written].
  assert (E : forall l, map (Json.item Json.wire) (map Str l) = map Str l).
  { induction l as [|i l IH]; simpl; [reflexivity|]. now rewrite IH. }
  rewrite E.
  destruct (String.eqb (personBirthday form) "");
    destruct (String.eqb (personOccupation form) "");
    destruct (String.eqb (personLocation form) ""); reflexivity.
Qed.

Ltac stage H :=
  match type of H with
  | and_then ?x _ = Ok _ =>
      let E := fresh "E" in
      destruct x eqn:E; cbn [and_then] in H; [|discriminate H]
  end.

(** X16: the card inserts the name as it is stored: whatever string the
    record has as name, markup included, is the text between the [h3]
    tags of the card's [innerHTML]; nothing is escaped. *)
Theorem card_inserts_name_verbatim :
  forall (o : object) (n : string) (c : card),
    get "name" o = Str n ->
    make_card (Obj o) = Ok c ->
    className c = "person-card"
    /\ exists rest,
         innerHTML c
         = (nl ++ "        <h3>" ++ n ++ "</h3>" ++ rest)%string.
Proof.
  intros o n c Hname H. unfold make_card, createPersonCard in H.
  cbn [read and_then] in H. rewrite Hname in H.
  repeat stage H.
  injection H as <-. cbn [className innerHTML].
  split; [reflexivity|].
  cbn [to_string] in *.
  match goal with E : Ok n = Ok _ |- _ => injection E as <- end.
  unfold card_html. eexists. cbn [String.concat]. reflexivity.
Qed.

(** A record whose interests are a non-empty string cannot be made into
    a card: a string has a positive length and no [map]. *)
Lemma string_interests_throw (o : object) (s : string) :
  get "interests" o = Str s -> s <> "" ->
  make_card (Obj o) = Throw NotAFunction.
Proof.
  intros Hi Hs. unfold make_card, createPersonCard.
  cbn [read and_then]. rewrite Hi.
  rewrite truthy_Str, (nonblank _ Hs). cbn [negb has_positive_length and_then].
  destruct s as [|a s]; [now elim Hs|]. reflexivity.
Qed.

(** A property that holds a string is sent and parsed back as it is. *)
Lemma written_string (k s : string) (o : object) :
  get k o = Str s -> get k (Json.written Json.wire o) = Str s.
Proof.
  unfold get. induction o as [|[k' v] o IH]; simpl; [discriminate|].
  destruct (String.eqb k k') eqn:E.
  - intros ->. simpl. now rewrite E.
  - intros H. destruct v; simpl; rewrite ?E; auto.
Qed.

Lemma append_cards_stuck (l : list value) (bad : value) (c : cause) :
  In bad l ->
  make_card bad = Throw c ->
  exists es c',
    append_cards number_to_string string_to_number l = (es, Some c').
Proof.
  intros Hin Hbad. induction l as [|p l IH]; simpl; [destruct Hin|].
  fold make_card. destruct (make_card p) as [k|c0] eqn:E.
  - destruct Hin as [->|Hin]; [rewrite Hbad in E; discriminate E|].
    destruct (IH Hin) as (es & c' & ->). now eexists _, c'.
  - now exists [], c0.
Qed.

Lemma append_cards_all (l : list value) (cards : list card) :
  Forall2 (fun p k => make_card p = Ok k) l cards ->
  append_cards number_to_string string_to_number l
  = (map (fun k => AppendChild "personDatabase" (className k) (innerHTML k))
       cards,
     None).
Proof.
  induction 1 as [|p k l cards Hp _ IH]; simpl; [reflexivity|].
  fold make_card. now rewrite Hp, IH.
Qed.

Lemma append_cards_events (l : list value) :
  Forall (fun e => exists k h, e = AppendChild "personDatabase" k h)
    (fst (append_cards number_to_string string_to_number l)).
Proof.
  induction l as [|p l IH]; simpl; [constructor|].
  destruct (createPersonCard number_to_string string_to_number p) as [k|c];
    [|constructor].
  destruct (append_cards number_to_string string_to_number l) as [es t].
  simpl in *. constructor; [now eexists _, _|exact IH].
Qed.

Lemma content_after_set (element html : string) (es : list ui_event) :
  html <> "" ->
  content_after element (es ++ [SetInnerHTML element html])
  = [Markup html].
Proof.
  intros H. unfold content_after. rewrite fold_left_app. simpl.
  now rewrite String.eqb_refl, (nonblank _ H).
Qed.

Lemma content_after_cards (cards : list card) (start : list node) :
  fold_left (apply_event "personDatabase")
    (map (fun k => AppendChild "personDatabase" (className k) (innerHTML k))
       cards) start
  = (start ++ map (fun k => Child (className k) (innerHTML k)) cards)%list.
Proof.
  revert start. induction cards as [|k cards IH]; intros start; simpl.
  - now rewrite app_nil_r.
  - rewrite IH. now rewrite <- app_assoc.
Qed.

(** The list as the page receives it: every stored record after the
    round trip through JSON, in the order of the array. *)
Lemma list_received (w : world) :
  fetch None (PersonDetails.list_all empty_request) w
  = (Ok {| status := 200;
           payload :=
             Obj [("status", Str "success");
                  ("count",
                   Json.wire (of_nat (List.length (personDatabase w))));
                  ("persons",
                   Arr (map (fun p => Json.wire (Obj p))
                          (personDatabase w)))] |},
     record DbRead (record DbLength w)).
Proof.
  unfold fetch, PersonDetails.list_all, bind, db_length, db_read, ret,
    Json.received, json.
  cbn [fst snd status payload personDatabase record].
  do 2 f_equal. f_equal. cbn [Json.wire Json.written of_nat].
  rewrite map_map. reflexivity.
Qed.

(** What a delivered reload does to the page. *)
Lemma load_delivered (w : world) :
  fst (loadPersonDatabase number_to_string string_to_number engine_message
         None w)
  = SetInnerHTML "personDatabase" ""
    :: match personDatabase w with
       | [] => [SetInnerHTML "personDatabase" placeholder_empty]
       | _ =>
           match append_cards number_to_string string_to_number
                   (map (fun p => Json.wire (Obj p)) (personDatabase w)) with
           | (es, None) => es
           | (es, Some c) =>
               (es ++ [SetInnerHTML "personDatabase"
                         (placeholder_error (message_of engine_message c))])
                 %list
           end
       end.
Proof.
  unfold loadPersonDatabase. rewrite list_received.
  cbn [succeeded status payload read get lookup String.eqb Ascii.eqb
       Bool.eqb andb and_then].
  destruct (personDatabase w) as [|p db]; [reflexivity|].
  cbn [has_zero_length map List.length Nat.eqb].
  destruct (append_cards number_to_string string_to_number
              (Json.wire (Obj p) :: map (fun p => Json.wire (Obj p)) db))
    as [es [c|]]; reflexivity.
Qed.

Lemma placeholder_error_nonblank (m : string) : placeholder_error m <> "".
Proof. discriminate. Qed.

(** A record, once stored, stays in the array. *)
Lemma later_keeps (w0 w : world) :
  later w0 w ->
  exists rest, personDatabase w = (personDatabase w0 ++ rest)%list.
Proof.
  induction 1 as [|w w' _ IH Hsame|w r req _ IH].
  - exists []. now rewrite app_nil_r.
  - rewrite Hsame. exact IH.
  - destruct (PersonDetailsSpec.handle_database r req w)
      as [->|(_ & _ & _ & _ & ->)]; [exact IH|].
    destruct IH as [rest ->]. rewrite <- app_assoc. now eexists.
Qed.

(** X17: a record posted with its interests as a plain non-empty string
    is accepted by the server, and from then on the list cannot be shown:
    in every later state of the server, whatever requests were answered
    in between, reloading the list ends with the error paragraph alone in
    the container, hiding every stored person. *)
Theorem string_interests_break_the_list :
  forall (req : request) (w : world) (s : string),
    truthy (get "name" (body req)) = true ->
    truthy (get "faceId" (body req)) = true ->
    get "interests" (body req) = Str s ->
    s <> "" ->
    let added := PersonDetails.create req w in
    status (fst added) = 201
    /\ forall w' : world,
         later (snd added) w' ->
         exists c,
           content_after "personDatabase"
             (fst (loadPersonDatabase number_to_string string_to_number
                     engine_message None w'))
           = [Markup (placeholder_error (message_of engine_message c))].
Proof.
  intros req w s Hn Hf Hi Hs. cbv zeta.
  destruct (PersonDetailsSpec.create_cases req w)
    as [[Hbad _]|(_ & _ & Hrun)].
  { rewrite Hn, Hf in Hbad. discriminate. }
  cbv zeta in Hrun. rewrite Hrun. cbn [fst snd].
  split; [reflexivity|].
  intros w' Hlater.
  destruct (later_keeps _ _ Hlater) as [rest Hdb].
  cbn [personDatabase] in Hdb.
  set (p := PersonDetails.newPerson _ _) in *.
  assert (Hp : make_card (Json.wire (Obj p)) = Throw NotAFunction).
  { apply (string_interests_throw _ s); [|exact Hs].
    apply written_string.
    change (get "interests" p)
      with (or_else (get "interests" (body req)) (Arr [])).
    rewrite Hi. unfold or_else. now rewrite truthy_Str, (nonblank _ Hs). }
  assert (Hin : In (Json.wire (Obj p))
                  (map (fun q => Json.wire (Obj q)) (personDatabase w'))).
  { apply (in_map (fun q => Json.wire (Obj q))). rewrite Hdb.
    apply in_or_app. left. apply in_or_app. right. now left. }
  destruct (append_cards_stuck _ _ _ Hin Hp) as (es & c & E).
  rewrite load_delivered, E. exists c.
  destruct (personDatabase w') as [|q db];
    [destruct (personDatabase w); discriminate Hdb|].
  rewrite app_comm_cons.
  apply content_after_set, placeholder_error_nonblank.
Qed.

Lemma cleared_then (es : list ui_event) :
  content_after "personDatabase" (SetInnerHTML "personDatabase" "" :: es)
  = fold_left (apply_event "personDatabase") es [].
Proof. reflexivity. Qed.

(** X18: reloading the list, once delivered, shows the stored persons
    one card each, in the order of the array, whenever every record, as
    the page receives it after the round trip through JSON, can be made
    into a card; with an empty array it shows the placeholder paragraph
    instead. *)
Theorem list_shows_every_record :
  forall (w : world) (cards : list card),
    Forall2 (fun p k => make_card (Json.wire (Obj p)) = Ok k)
      (personDatabase w) cards ->
    content_after "personDatabase"
      (fst (loadPersonDatabase number_to_string string_to_number
              engine_message None w))
    = match personDatabase w with
      | [] => [Markup placeholder_empty]
      | _ => map (fun k => Child (className k) (innerHTML k)) cards
      end.
Proof.
  intros w cards H. rewrite load_delivered.
  destruct (personDatabase w) as [|p db] eqn:Hdb; [reflexivity|].
  assert (H' : Forall2 (fun v k => make_card v = Ok k)
                 (map (fun q => Json.wire (Obj q)) (p :: db)) cards).
  { clear -H. induction H; simpl; constructor; assumption. }
  rewrite (append_cards_all _ _ H').
  rewrite cleared_then. apply content_after_cards.
Qed.

Lemma seeds_stay (w : world) :
  PersonDetails.reachable w ->
  exists rest,
    personDatabase w = (PersonDetails.initialDatabase ++ rest)%list.
Proof.
  induction 1 as [now|w now _ IH|w r req _ IH].
  - now exists [].
  - exact IH.
  - destruct (PersonDetailsSpec.handle_database r req w)
      as [->|(_ & _ & _ & _ & ->)]; [exact IH|].
    destruct IH as [rest ->]. rewrite <- app_assoc. now eexists.
Qed.

Lemma placeholders_differ (m : string) :
  placeholder_error m <> placeholder_empty.
Proof. intros H. vm_compute in H. discriminate H. Qed.

(** X19: the server starts with two records and never removes one, so in
    no state it can reach does reloading the list put up the
    "No persons in database" placeholder. *)
Theorem empty_placeholder_is_never_shown :
  forall (w : world),
    PersonDetails.reachable w ->
    ~ In (SetInnerHTML "personDatabase" placeholder_empty)
        (fst (loadPersonDatabase number_to_string string_to_number
                engine_message None w)).
Proof.
  intros w Hreach. destruct (seeds_stay w Hreach) as [rest Hdb].
  rewrite load_delivered.
  pose proof (append_cards_events
                (map (fun p => Json.wire (Obj p)) (personDatabase w)))
    as Hes.
  destruct (append_cards number_to_string string_to_number
              (map (fun p => Json.wire (Obj p)) (personDatabase w)))
    as [es thrown].
  cbn [fst] in Hes. rewrite Forall_forall in Hes.
  assert (Hno : ~ In (SetInnerHTML "personDatabase" placeholder_empty) es).
  { intros Hin. destruct (Hes _ Hin) as (k & h & E). discriminate E. }
  rewrite Hdb. cbn [PersonDetails.initialDatabase app].
  destruct thrown as [c|]; intros [E|Hin]; try discriminate E.
  - apply in_app_or in Hin. destruct Hin as [Hin|[E|[]]];
      [now apply Hno|].
    exact (placeholders_differ _
             (f_equal (fun e => match e with
                                | SetInnerHTML _ h => h
                                | _ => ""
                                end) E)).
  - now apply Hno.
Qed.

End Cards.

Lemma card_inserts_name_verbatim_witness :
  exists rest,
    card_html "<b>Ann</b>" "face-003" "Not specified"
      "Not specified" "Not specified" no_interests ""
    = (nl ++ "        <h3>" ++ "<b>Ann</b>" ++ "</h3>" ++ rest)%string.
Proof.
  destruct (card_inserts_name_verbatim (fun _ => "") (fun _ => 0%float)
              (form_record 2
                 {| personName := "<b>Ann</b>"; personBirthday := "";
                    personFaceId := "face-003"; personOccupation := "";
                    personLocation := ""; personInterests := "" |})
              "<b>Ann</b>"
              {| className := "person-card";
                 innerHTML :=
                   card_html "<b>Ann</b>" "face-003" "Not specified"
                     "Not specified" "Not specified" no_interests "" |}
              eq_refl eq_refl) as [_ H].
  exact H.
Defined.

Lemma string_interests_break_the_list_witness :
  exists c,
    content_after "personDatabase"
      (fst (loadPersonDatabase (fun _ => "") (fun _ => 0%float)
              (fun _ => "not a function") None
              (snd (PersonDetails.create
                      (PersonDetails.post [("name", Str "Bob");
                                           ("faceId", Str "face-004")])
                      (snd (PersonDetails.create
                              (PersonDetails.post
                                 [("name", Str "Ann");
                                  ("faceId", Str "face-003");
                                  ("interests", Str "music")])
                              (PersonDetails.initialWorld 0)))))))
    = [Markup (placeholder_error
                 (message_of (fun _ => "not a function") c))].
Proof.
  assert (Hs : "music" <> "") by discriminate.
  destruct (string_interests_break_the_list (fun _ => "") (fun _ => 0%float)
              (fun _ => "not a function")
              (PersonDetails.post [("name", Str "Ann");
                                   ("faceId", Str "face-003");
                                   ("interests", Str "music")])
              (PersonDetails.initialWorld 0) "music"
              eq_refl eq_refl eq_refl Hs) as [_ H].
  exact (H _ (later_step _ _ PersonDetails.POST_root
                (PersonDetails.post [("name", Str "Bob");
                                     ("faceId", Str "face-004")])
                (later_now _))).
Defined.

Lemma list_shows_every_record_witness :
  List.length
    (content_after "personDatabase"
       (fst (loadPersonDatabase (fun _ => "") (fun _ => 0%float)
               (fun _ => "") None (PersonDetails.initialWorld 0))))
  = 2%nat.
Proof.
  destruct (createPersonCard (fun _ => "") (fun _ => 0%float)
              (Json.wire (Obj (nth 0 PersonDetails.initialDatabase []))))
    as [k0|c0] eqn:E0; [|discriminate E0].
  destruct (createPersonCard (fun _ => "") (fun _ => 0%float)
              (Json.wire (Obj (nth 1 PersonDetails.initialDatabase []))))
    as [k1|c1] eqn:E1; [|discriminate E1].
  rewrite (list_shows_every_record (fun _ => "") (fun _ => 0%float)
             (fun _ => "") (PersonDetails.initialWorld 0) [k0; k1]).
  - reflexivity.
  - repeat constructor; assumption.
Defined.

(** X24: what the round trip through JSON does to the list.  A person
    posted with the number [Infinity] as faceId is accepted and stored
    with that number; in the list the page receives the faceId is
    [null], so the card of that person reads "null" as Face ID, whatever
    the engine would print for the number. *)
Theorem infinite_faceId_is_listed_as_null :
  forall (number_to_string : float -> string)
         (string_to_number : string -> float)
         (engine_message : cause -> string) (now : Z),
    let added :=
      PersonDetails.create
        (PersonDetails.post [("name", Str "Ann");
                             ("faceId", Num PrimFloat.infinity)])
        (PersonDetails.initialWorld now) in
    status (fst added) = 201
    /\ (exists p, nth_error (personDatabase (snd added)) 2 = Some p
                  /\ get "faceId" p = Num PrimFloat.infinity)
    /\ nth_error
         (content_after "personDatabase"
            (fst (loadPersonDatabase number_to_string string_to_number
                    engine_message None (snd added)))) 2
       = Some (Child "person-card"
                 (card_html "Ann" "null" "Not specified" "Not specified"
                    "Not specified" no_interests "")).
Proof.
  intros nts stn emsg now. cbv zeta.
  split; [reflexivity|]. split.
  - eexists. split; reflexivity.
  - vm_compute. reflexivity.
Qed.

Lemma empty_placeholder_is_never_shown_witness :
  ~ In (SetInnerHTML "personDatabase" placeholder_empty)
      (fst (loadPersonDatabase (fun _ => "") (fun _ => 0%float)
              (fun _ => "") None (PersonDetails.initialWorld 0))).
Proof.
  apply (empty_placeholder_is_never_shown (fun _ => "") (fun _ => 0%float)
           (fun _ => "") (PersonDetails.initialWorld 0)).
  apply PersonDetails.reach_init.
Defined.

(** *** Looking a person up from the page *)

Section Lookup.
Variable number_to_string : float -> string.
Variable string_to_number : string -> float.
Variable engine_message : cause -> string.
Variable parse_query : string -> object.

Let look_up :=
  searchPersonDetails number_to_string string_to_number engine_message
    parse_query None.

(** X20: the "View Details" buttons of the demo faces always work.  In
    every state the server can reach, and with a query parser that reads
    the faceId back as written, looking up the faceId of a demo face
    finds a seed record that carries the same name as the demo face and
    replaces the list by that record's card. *)
Theorem demo_faces_are_always_found :
  forall (w : world) (face : mock_face),
    PersonDetails.reachable w ->
    In face mockFaces ->
    parse_query ("faceId=" ++ m_faceId face)
    = [("faceId", Str (m_faceId face))] ->
    exists p k,
      In p PersonDetails.initialDatabase
      /\ get "faceId" p = Str (m_faceId face)
      /\ get "name" p = Str (m_personName face)
      /\ createPersonCard number_to_string string_to_number (Obj p) = Ok k
      /\ fst (look_up (m_faceId face) w)
         = [ SetInnerHTML "personDatabase" "";
             AppendChild "personDatabase" "person-card" (innerHTML k);
             ScrollIntoView "personDatabase" ].
Proof.
  intros w face Hreach Hface Hparse.
  destruct (seeds_stay w Hreach) as [rest Hdb].
  assert (Hfind : forall f p,
            find (fun q => strict_equals (get "faceId" q) (Str f))
              PersonDetails.initialDatabase = Some p ->
            PersonDetails.search
              {| query := [("faceId", Str f)]; params := [];
                 body := []; file := None |} w
            = (json 200 (Obj [("status", Str "success"); ("person", Obj p)]),
               record DbFind w)).
  { intros f p Hp. unfold PersonDetails.search. cbn [query].
    change (get "faceId" [("faceId", Str f)]) with (Str f).
    assert (Ht : truthy (Str f) = true).
    { destruct f; [discriminate Hp|reflexivity]. }
    rewrite Ht. unfold bind, db_find. cbv beta iota delta [negb].
    rewrite Hdb.
    now rewrite (PersonDetailsSpec.find_app_some _ _ rest p Hp). }
  unfold look_up, searchPersonDetails, fetch. rewrite Hparse.
  destruct Hface as [<-|[<-|[]]]; cbn [m_faceId m_personName].
  - exists (nth 0 PersonDetails.initialDatabase []). eexists.
    split; [now left|]. split; [reflexivity|]. split; [reflexivity|].
    split; [reflexivity|].
    rewrite (Hfind "face-001" (nth 0 PersonDetails.initialDatabase []))
      by reflexivity.
    reflexivity.
  - exists (nth 1 PersonDetails.initialDatabase []). eexists.
    split; [right; now left|]. split; [reflexivity|].
    split; [reflexivity|]. split; [reflexivity|].
    rewrite (Hfind "face-002" (nth 1 PersonDetails.initialDatabase []))
      by reflexivity.
    reflexivity.
Qed.

(** X21: what the page says when the lookup fails.  A faceId the server
    reads as empty is answered 400 without a [message], so the alert
    reads "Person not found: undefined" and the database is not
    consulted; a faceId no record carries is answered 404 and the alert
    shows the server's message. *)
Theorem failed_lookup_alerts :
  forall (blank unknown : string) (w : world),
    truthy (get "faceId" (parse_query ("faceId=" ++ blank))) = false ->
    truthy (get "faceId" (parse_query ("faceId=" ++ unknown))) = true ->
    (forall p, In p (personDatabase w) ->
               strict_equals (get "faceId" p)
                 (get "faceId" (parse_query ("faceId=" ++ unknown)))
               = false) ->
    look_up blank w = ([Alert "Person not found: undefined"], w)
    /\ fst (look_up unknown w)
       = [Alert
            "Person not found: No matching person found for the given faceId"].
Proof.
  intros blank unknown w Hblank Hunknown Hmiss.
  unfold look_up, searchPersonDetails, fetch. split.
  - unfold PersonDetails.search. cbn [query]. now rewrite Hblank.
  - rewrite (PersonDetailsSpec.search_miss
               {| query := parse_query ("faceId=" ++ unknown); params := [];
                  body := []; file := None |} w Hunknown Hmiss).
    reflexivity.
Qed.

End Lookup.

Lemma demo_faces_are_always_found_witness :
  exists p,
    In p PersonDetails.initialDatabase
    /\ get "name" p = Str "Jane Smith".
Proof.
  destruct (demo_faces_are_always_found (fun _ => "") (fun _ => 0%float)
              (fun _ => "")
              (fun q => [("faceId", Str (substring 7 (String.length q - 7) q))])
              (PersonDetails.initialWorld 0)
              (nth 1 mockFaces (nth 0 mockFaces (nth 0 mockFaces
                 {| m_faceId := ""; m_confidence := 0%float;
                    m_personName := ""; m_age := 0%float;
                    m_emotion := "" |})))
              (PersonDetails.reach_init 0))
    as (p & k & Hin & _ & Hname & _).
  - right. left. reflexivity.
  - reflexivity.
  - exists p. split; [exact Hin|exact Hname].
Defined.

Lemma failed_lookup_alerts_witness :
  searchPersonDetails (fun _ => "") (fun _ => 0%float) (fun _ => "")
    (fun q => [("faceId", Str (substring 7 (String.length q - 7) q))])
    None "" (PersonDetails.initialWorld 0)
  = ([Alert "Person not found: undefined"], PersonDetails.initialWorld 0).
Proof.
  apply (failed_lookup_alerts (fun _ => "") (fun _ => 0%float)
           (fun _ => "")
           (fun q => [("faceId", Str (substring 7 (String.length q - 7) q))])
           "" "face-999" (PersonDetails.initialWorld 0)).
  - reflexivity.
  - reflexivity.
  - intros p [<-|[<-|[]]]; reflexivity.
Defined.

End ScriptSpec.
